(** * A synthetic OpenTelemetry workload generator (main.go)

    The program wires an OTLP exporter, a trace provider and a metrics pusher
    (initProvider), and then loops forever over f1, a traced unit of work that
    calls a second traced unit of work, f2.  Each unit sleeps for a random
    time, draws a few random line lengths and prints them together with its
    latency.

    The embedding is shallow: every Go function below is a function of a small
    state monad over [World], which holds the random generator, the clock, the
    tracing backend's span counter and the chronological log of every call
    made to an external collaborator (clock, generator, tracer, stdout,
    stderr, the telemetry pipeline).  The properties are stated on that
    log. *)

From Stdlib Require Import ZArith List String Ascii Bool Lia.
From Stdlib Require Import DecimalString DecimalZ DecimalPos.
From Stdlib Require Import Floats.SpecFloat.
Import ListNotations.
Open Scope Z_scope.

(** ** Go base types *)

Module Go.

(** int64 arithmetic wraps around. *)
Definition wrap64 (z : Z) : Z := (z + 2 ^ 63) mod 2 ^ 64 - 2 ^ 63.

Definition max_int64 : Z := 2 ^ 63 - 1.

(** [a % b] truncates towards zero. *)
Definition rem (a b : Z) : Z := Z.rem a b.

(** The verb [%d]. *)
Definition fmt_d (z : Z) : string := NilZero.string_of_int (Z.to_int z).

Definition newline : string := String (ascii_of_nat 10) EmptyString.

End Go.

(** ** float64

    IEEE-754 binary64, through the Standard Library's executable
    specification of floating-point numbers. *)

Module Float64.

Definition prec : Z := 53.
Definition emax : Z := 1024.

Definition float64 : Type := spec_float.

(** The conversion [float64(x)] of an int64, to nearest even. *)
Definition of_int64 (z : Z) : float64 := binary_normalize prec emax z 0 false.

(** The operator [/]. *)
Definition div (x y : float64) : float64 := SFdiv prec emax x y.

(** The constant [1e6]. *)
Definition f1e6 : float64 := of_int64 1000000.

(** [round_half_even num den] is the integer nearest to num/den, ties to
    the even one (den > 0). *)
Definition round_half_even (num den : Z) : Z :=
  let q := num / den in
  match 2 * (num mod den) ?= den with
  | Lt => q
  | Gt => q + 1
  | Eq => if Z.even q then q else q + 1
  end.

(** The magnitude m * 2^e in thousandths, correctly rounded. *)
Definition thousandths (m : positive) (e : Z) : Z :=
  if 0 <=? e then Zpos m * 2 ^ e * 1000
  else round_half_even (Zpos m * 1000) (2 ^ (- e)).

Definition digit (d : Z) : string :=
  String (ascii_of_nat (48 + Z.to_nat d)) EmptyString.

Definition fixed3 (s : bool) (k : Z) : string :=
  ((if s then "-" else EmptyString) ++ Go.fmt_d (k / 1000) ++ "."
     ++ digit (k / 100 mod 10) ++ digit (k / 10 mod 10) ++ digit (k mod 10))%string.

(** The verb [%.3f]: fixed notation, three digits after the point, the
    exact binary value rounded to nearest even. *)
Definition fmt_f3 (x : float64) : string :=
  match x with
  | S754_zero s => fixed3 s 0
  | S754_finite s m e => fixed3 s (thousandths m e)
  | S754_infinity s => if s then "-Inf"%string else "+Inf"%string
  | S754_nan => "NaN"%string
  end.

Definition is_finite (x : float64) : bool :=
  match x with
  | S754_zero _ | S754_finite _ _ _ => true
  | _ => false
  end.

Definition sign (x : float64) : bool :=
  match x with
  | S754_zero s | S754_finite s _ _ | S754_infinity s => s
  | S754_nan => false
  end.

End Float64.

(** ** math/rand

    The generator is the Go library's; the program only relies on its
    interface.  [Int63n n] and [Int31n n] return a number of the half-open
    interval [0,n) and step the generator; the program calls them with
    positive literals only (they panic on n <= 0). *)

Class RandSource : Type := {
  rng_state : Type;
  NewSource : Z -> rng_state;
  Int63n : Z -> rng_state -> Z * rng_state;
  Int31n : Z -> rng_state -> Z * rng_state;
  Int63n_range : forall n s, 0 < n -> 0 <= fst (Int63n n s) < n;
  Int31n_range : forall n s, 0 < n -> 0 <= fst (Int31n n s) < n
}.

(** A generator that replays a script of raw values, reduced modulo the
    bound: an instance of the interface on which the program can be run. *)
Definition script_draw (n : Z) (s : list Z) : Z * list Z :=
  (hd 0 s mod n, tl s).

#[export] Instance script_rand (seeded : Z -> list Z) : RandSource := {|
  rng_state := list Z;
  NewSource := seeded;
  Int63n := script_draw;
  Int31n := script_draw;
  Int63n_range := fun n s Hn => Z.mod_pos_bound (hd 0 s) n Hn;
  Int31n_range := fun n s Hn => Z.mod_pos_bound (hd 0 s) n Hn
|}.

(** ** The collaborators' calls *)

Definition SpanId : Type := nat.

(** The calls of initProvider and of the shutdown closure. *)
Inductive PipelineCall : Type :=
| NewExporter (addr : string)
| NewResource (service : string)
| NewBatchSpanProcessor
| NewTracerProvider
| NewPusher (period_ns : Z)
| SetTextMapPropagator
| SetTracerProvider
| SetMeterProvider
| PusherStart
| TracerProviderShutdown
| ExporterShutdown
| PusherStop.

Inductive Event : Type :=
| EvNow (t : Z)                       (* time.Now() returned t *)
| EvSince (t : Z)                     (* time.Since read the clock at t *)
| EvSleep (d : Z)                     (* time.Sleep(d) *)
| EvInt63n (n v : Z)                  (* rng.Int63n(n) returned v *)
| EvInt31n (n v : Z)                  (* rng.Int31n(n) returned v *)
| EvStart (id : SpanId) (parent : option SpanId) (name : string)
| EvEnd (id : SpanId)
| EvStdout (s : string)
| EvStderr (s : string)
| EvPipeline (c : PipelineCall)
| EvExit (code : Z).

(** Which of the fallible pipeline calls fail, and with what error. *)
Record Collaborators : Type := mkCollaborators {
  exporter_err : option string;           (* otlp.NewExporter *)
  resource_err : option string;           (* resource.New *)
  provider_shutdown_err : option string;  (* tracerProvider.Shutdown *)
  exporter_shutdown_err : option string   (* exp.Shutdown *)
}.

Definition all_healthy : Collaborators := mkCollaborators None None None None.

(** A context carries the active span and the baggage labels. *)
Record Context : Type := mkContext {
  ctx_span : option SpanId;
  ctx_labels : list (string * string)
}.

Definition Background : Context := mkContext None [].

Definition ContextWithValues (ctx : Context) (kvs : list (string * string)) : Context :=
  mkContext (ctx_span ctx) (ctx_labels ctx ++ kvs).

Section Program.

Context {R : RandSource}.

(** ** The world *)

Record World : Type := mkWorld {
  rng : rng_state;         (* the one *rand.Rand, shared by f1 and f2 *)
  clock : Z;               (* nanoseconds since the Unix epoch *)
  drift : list N;          (* time that passes before each clock reading *)
  next_span : SpanId;      (* the tracer's next span identity *)
  collab : Collaborators;
  log : list Event         (* oldest first *)
}.

Definition M (A : Type) : Type := World -> A * World.

Definition ret {A} (a : A) : M A := fun w => (a, w).

Definition bind {A B} (m : M A) (k : A -> M B) : M B :=
  fun w => let (a, w') := m w in k a w'.

Definition emit (e : Event) : M unit :=
  fun w => (tt, mkWorld (rng w) (clock w) (drift w) (next_span w) (collab w)
                        (log w ++ [e])).

(** Reading the clock: the time of the next drift entry has passed. *)
Definition tick : M Z :=
  fun w => let t := clock w + Z.of_N (hd 0%N (drift w)) in
           (t, mkWorld (rng w) t (tl (drift w)) (next_span w) (collab w) (log w)).

Definition advance (d : Z) : M unit :=
  fun w => (tt, mkWorld (rng w) (clock w + d) (drift w) (next_span w) (collab w)
                        (log w)).

Definition draw (f : rng_state -> Z * rng_state) : M Z :=
  fun w => let (v, s) := f (rng w) in
           (v, mkWorld s (clock w) (drift w) (next_span w) (collab w) (log w)).

Definition set_rng (s : rng_state) : M unit :=
  fun w => (tt, mkWorld s (clock w) (drift w) (next_span w) (collab w) (log w)).

Definition fresh_span : M SpanId :=
  fun w => (next_span w,
            mkWorld (rng w) (clock w) (drift w) (S (next_span w)) (collab w) (log w)).

Definition ask : M Collaborators := fun w => (collab w, w).

End Program.

Declare Scope go_scope.
Delimit Scope go_scope with go.
Notation "x <- m ;; k" := (bind m (fun x => k))
  (at level 61, m at next level, right associativity) : go_scope.
Notation "m ;; k" := (bind m (fun _ => k))
  (at level 61, right associativity) : go_scope.
Open Scope go_scope.
Open Scope string_scope.

(** A call either returns or ends the process. *)
Inductive Outcome (A : Type) : Type :=
| Returned (a : A)
| Exited (code : Z).
Arguments Returned {A} a.
Arguments Exited {A} code.

Section Simulator.

Context {R : RandSource}.

(** ** package time *)

Definition Millisecond : Z := 1000000.

Definition time_Now : M Z :=
  t <- tick ;; emit (EvNow t) ;; ret t.

(** [t.Unix()]: whole seconds since the epoch. *)
Definition Unix (t : Z) : Z := t / 1000000000.

(** [t.UnixNano()]. *)
Definition UnixNano (t : Z) : Z := Go.wrap64 t.

(** [time.Since(start)]: the difference saturates at the largest
    Duration. *)
Definition time_Since (start : Z) : M Z :=
  t <- tick ;; emit (EvSince t) ;;
  ret (Z.max (- Go.max_int64 - 1) (Z.min Go.max_int64 (t - start))).

(** [time.Sleep(d)] returns at once when d <= 0. *)
Definition time_Sleep (d : Z) : M unit :=
  emit (EvSleep d) ;; advance (Z.max 0 d).

(** ** The generator, tracer and fmt calls *)

Definition rng_Int63n (n : Z) : M Z :=
  v <- draw (Int63n n) ;; emit (EvInt63n n v) ;; ret v.

Definition rng_Int31n (n : Z) : M Z :=
  v <- draw (Int31n n) ;; emit (EvInt31n n v) ;; ret v.

(** [tracer.Start(ctx, name)]: a new span under the context's active
    span, and the context in which the new span is active. *)
Definition tracer_Start (ctx : Context) (name : string) : M (Context * SpanId) :=
  id <- fresh_span ;;
  emit (EvStart id (ctx_span ctx) name) ;;
  ret (mkContext (Some id) (ctx_labels ctx), id).

Definition span_End (span : SpanId) : M unit := emit (EvEnd span).

Definition Printf (s : string) : M unit := emit (EvStdout s).

(** ** f2 (main.go, 187-220) and f1 (main.go, 150-185)

    The arguments [rng] and [tracer] of the Go functions are the one
    generator and the one tracer of the process; both live in the world. *)

Definition line_length_line (i randLineLength : Z) : string :=
  "#" ++ Go.fmt_d i ++ ": LineLength: " ++ Go.fmt_d randLineLength ++ "By"
      ++ Go.newline.

Definition latency_line (latencyMs : Float64.float64) : string :=
  "Latency: " ++ Float64.fmt_f3 latencyMs ++ "ms" ++ Go.newline.

(** [for i := 0; i < nr; i++ { ... }], by the number of rounds left. *)
Fixpoint line_loop (rounds : nat) (i : Z) : M unit :=
  match rounds with
  | O => ret tt
  | S rounds' =>
      randLineLength <- rng_Int63n 999 ;;
      Printf (line_length_line i randLineLength) ;;
      line_loop rounds' (i + 1)
  end.

(** The switch on [time.Now().Unix() % 5]; [sleep] keeps its zero value
    when no case matches. *)
Definition sleep_switch (modulus : Z) : M Z :=
  match modulus with
  | 0 => rng_Int63n 17001
  | 1 => rng_Int63n 8007
  | 2 => rng_Int63n 917
  | 3 => rng_Int63n 87
  | 4 => rng_Int63n 1173
  | _ => ret 0
  end.

Definition f2 (ctx : Context) : M unit :=
  startTime <- time_Now ;;
  cs <- tracer_Start ctx "ExecuteRequest" ;;
  let span := snd cs in
  now <- time_Now ;;
  sleep <- sleep_switch (Go.rem (Unix now) 5) ;;
  time_Sleep (Go.wrap64 (sleep * Millisecond)) ;;
  span_End span ;;
  since <- time_Since startTime ;;
  let latencyMs := Float64.div (Float64.of_int64 since) Float64.f1e6 in
  nr <- rng_Int31n 7 ;;
  line_loop (Z.to_nat nr) 0 ;;
  Printf (latency_line latencyMs).

Definition f1 (ctx : Context) : M unit :=
  startTime <- time_Now ;;
  cs <- tracer_Start ctx "ExecuteRequest" ;;
  let childCtx := fst cs in
  let span := snd cs in
  now <- time_Now ;;
  sleep <- sleep_switch (Go.rem (Unix now) 5) ;;
  time_Sleep (Go.wrap64 (sleep * Millisecond)) ;;
  span_End span ;;
  since <- time_Since startTime ;;
  let latencyMs := Float64.div (Float64.of_int64 since) Float64.f1e6 in
  nr <- rng_Int31n 7 ;;
  line_loop (Z.to_nat nr) 0 ;;
  f2 childCtx ;;
  Printf (latency_line latencyMs).

(** [for { f1(defaultCtx, rng, tracer) }]: the first [n] rounds of the
    endless loop. *)
Fixpoint simulate (n : nat) (defaultCtx : Context) : M unit :=
  match n with
  | O => ret tt
  | S n' => f1 defaultCtx ;; simulate n' defaultCtx
  end.

(** ** initProvider (main.go, 42-89), handleErr (91-95), main (97-148) *)

Definition Proc (A : Type) : Type := World -> Outcome A * World.

Definition pret {A} (a : A) : Proc A := fun w => (Returned a, w).

Definition pbind {A B} (m : Proc A) (k : A -> Proc B) : Proc B :=
  fun w => match m w with
           | (Returned a, w') => k a w'
           | (Exited code, w') => (Exited code, w')
           end.

Definition lift {A} (m : M A) : Proc A :=
  fun w => let (a, w') := m w in (Returned a, w').

Notation "x <~ m ;; k" := (pbind m (fun x => k))
  (at level 61, m at next level, right associativity).
Notation "m ~; k" := (pbind m (fun _ => k))
  (at level 61, right associativity).

(** [log.Fatalf]: the message goes to the error stream (the logger's
    date prefix is left out) and the process exits with status 1. *)
Definition log_Fatalf {A} (msg : string) : Proc A :=
  fun w => (Exited 1, snd ((emit (EvStderr msg) ;; emit (EvExit 1)) w)).

(** [err] is [None] for Go's nil, else the error's text; the format is
    "%s: %v". *)
Definition handleErr (err : option string) (message : string) : Proc unit :=
  match err with
  | Some e => log_Fatalf (message ++ ": " ++ e)
  | None => pret tt
  end.

Definition Second : Z := 1000000000.

(** The closure returned by initProvider. *)
Definition shutdown_closure : Proc unit :=
  lift (emit (EvPipeline TracerProviderShutdown)) ~;
  c <~ lift ask ;;
  handleErr (provider_shutdown_err c) "failed to shutdown provider" ~;
  lift (emit (EvPipeline ExporterShutdown)) ~;
  c' <~ lift ask ;;
  handleErr (exporter_shutdown_err c') "failed to stop exporter" ~;
  lift (emit (EvPipeline PusherStop)).

Definition initProvider : Proc (Proc unit) :=
  let collectorAddr := "0.0.0.0:55680" in
  lift (emit (EvPipeline (NewExporter collectorAddr))) ~;
  c <~ lift ask ;;
  handleErr (exporter_err c) "failed to create exporter" ~;
  lift (emit (EvPipeline (NewResource "test-service"))) ~;
  c' <~ lift ask ;;
  handleErr (resource_err c') "failed to create resource" ~;
  lift (emit (EvPipeline NewBatchSpanProcessor)) ~;
  lift (emit (EvPipeline NewTracerProvider)) ~;
  lift (emit (EvPipeline (NewPusher (7 * Second)))) ~;
  lift (emit (EvPipeline SetTextMapPropagator)) ~;
  lift (emit (EvPipeline SetTracerProvider)) ~;
  lift (emit (EvPipeline SetMeterProvider)) ~;
  lift (emit (EvPipeline PusherStart)) ~;
  pret shutdown_closure.

Definition commonLabels : list (string * string) :=
  [("method", "repl"); ("client", "cli")].

(** main, cut after [n] rounds of its loop.  The deferred shutdown would
    run when main returns, which the loop never lets it do; log.Fatalf
    exits without running deferred calls. *)
Definition main (n : nat) : Proc unit :=
  shutdown <~ initProvider ;;
  let defaultCtx := ContextWithValues Background commonLabels in
  seed <~ lift time_Now ;;
  lift (set_rng (NewSource (UnixNano seed))) ~;
  lift (simulate n defaultCtx).

End Simulator.

Open Scope list_scope.
Open Scope Z_scope.

(** ** Reading the log *)

Definition PipelineCall_eq_dec (a b : PipelineCall) : {a = b} + {a <> b}.
Proof. decide equality; solve [apply string_dec | apply Z.eq_dec]. Defined.

Definition Event_eq_dec (a b : Event) : {a = b} + {a <> b}.
Proof.
  decide equality;
    solve [ apply Z.eq_dec | apply Nat.eq_dec | apply string_dec
          | apply PipelineCall_eq_dec
          | decide equality; apply Nat.eq_dec ].
Defined.

Definition event_eqb (a b : Event) : bool :=
  if Event_eq_dec a b then true else false.

Definition occurs (a : Event) (l : list Event) : bool := existsb (event_eqb a) l.

(** Some occurrence of [a] comes before some occurrence of [b]. *)
Fixpoint occurs_before (a b : Event) (l : list Event) : bool :=
  match l with
  | [] => false
  | x :: r => (event_eqb x a && occurs b r) || occurs_before a b r
  end.

(** The spans started and not yet ended, oldest first. *)
Fixpoint open_spans (l : list Event) (opened : list SpanId) : list SpanId :=
  match l with
  | [] => opened
  | EvStart id _ _ :: r => open_spans r (opened ++ [id])
  | EvEnd id :: r => open_spans r (filter (fun i => negb (Nat.eqb i id)) opened)
  | _ :: r => open_spans r opened
  end.

(** The spans started, and the spans ended, in order. *)
Definition started (l : list Event) : list SpanId :=
  flat_map (fun e => match e with EvStart id _ _ => [id] | _ => [] end) l.

Definition ended (l : list Event) : list SpanId :=
  flat_map (fun e => match e with EvEnd id => [id] | _ => [] end) l.

(** The results of time.Now(), in order. *)
Definition nows (l : list Event) : list Z :=
  flat_map (fun e => match e with EvNow t => [t] | _ => [] end) l.

(** The clock readings of every kind, in order. *)
Definition readings (l : list Event) : list Z :=
  flat_map (fun e => match e with EvNow t | EvSince t => [t] | _ => [] end) l.

Definition stdout (l : list Event) : list string :=
  flat_map (fun e => match e with EvStdout s => [s] | _ => [] end) l.

Fixpoint odds {A} (l : list A) : list A :=
  match l with
  | _ :: x :: r => x :: odds r
  | _ => []
  end.

(** Every unit of work calls time.Now() twice, for startTime and then for
    the switch: the readings the switches saw are the odd ones, and the
    moduli are what the switches made of them. *)
Definition switch_moduli (l : list Event) : list Z :=
  map (fun t => Go.rem (t / 1000000000) 5) (odds (nows l)).

(** What the generator decided: its draws, the sleeps and the lines of
    line lengths. *)
Definition is_sample (e : Event) : bool :=
  match e with
  | EvInt63n _ _ | EvInt31n _ _ | EvSleep _ => true
  | _ => false
  end.

Definition samples (l : list Event) : list Event := filter is_sample l.

(** The lines "#<index>: LineLength: <value>By", numbered from [i]. *)
Fixpoint numbered_lines (i : Z) (xs : list Z) : list string :=
  match xs with
  | [] => []
  | x :: r =>
      ("#" ++ Go.fmt_d i ++ ": LineLength: " ++ Go.fmt_d x ++ "By" ++ Go.newline)%string
      :: numbered_lines (i + 1) r
  end.


(** What rounding keeps: the sign, and bounds on the mantissa and on the
    exponent that exclude an overflow. *)
Definition rounded (s : bool) (K lo hi : Z) (x : spec_float) : Prop :=
  match x with
  | S754_zero s' => s' = s
  | S754_finite s' m' e' => s' = s /\ Zpos m' < 2 ^ (K + 1) /\ lo <= e' <= hi
  | _ => False
  end.


(** The calls of an initProvider in which nothing fails. *)
Definition init_events : list Event :=
  [EvPipeline (NewExporter "0.0.0.0:55680");
   EvPipeline (NewResource "test-service");
   EvPipeline NewBatchSpanProcessor;
   EvPipeline NewTracerProvider;
   EvPipeline (NewPusher 7000000000);
   EvPipeline SetTextMapPropagator;
   EvPipeline SetTracerProvider;
   EvPipeline SetMeterProvider;
   EvPipeline PusherStart].

(** The durations handed to time.Sleep, in order. *)
Definition sleeps (l : list Event) : list Z :=
  flat_map (fun e => match e with EvSleep d => [d] | _ => [] end) l.

(** The spans started, each with its parent and its name, in order. *)
Definition starts (l : list Event) : list (SpanId * option SpanId * string) :=
  flat_map (fun e => match e with EvStart id p name => [(id, p, name)] | _ => [] end) l.

(** The calls made to the telemetry pipeline, in order. *)
Definition pipeline_calls (l : list Event) : list PipelineCall :=
  flat_map (fun e => match e with EvPipeline c => [c] | _ => [] end) l.

(** What reaches the error stream and the exits, in order. *)
Definition failures (l : list Event) : list Event :=
  flat_map (fun e => match e with EvStderr _ | EvExit _ => [e] | _ => [] end) l.

(** The events of a unit of work: calls to the clock, the generator, the
    tracer and the standard output. *)
Definition unit_event (e : Event) : Prop :=
  match e with
  | EvStderr _ | EvPipeline _ | EvExit _ => False
  | _ => True
  end.

(** The spans of [n] rounds of the loop, from span [k] on, under [parent]:
    in each round an outer span and, under it, an inner one. *)
Fixpoint round_starts (n : nat) (k : SpanId) (parent : option SpanId)
  : list (SpanId * option SpanId * string) :=
  match n with
  | O => []
  | S n' =>
      (k, parent, "ExecuteRequest"%string)
        :: (S k, Some k, "ExecuteRequest"%string)
        :: round_starts n' (S (S k)) parent
  end.

(** A duration of a whole number of milliseconds, 17 s at most. *)
Definition whole_ms_up_to_17s (d : Z) : Prop :=
  exists ms, d = ms * 1000000 /\ 0 <= ms <= 17000.

(** [located A B m l]: the quotient A/B lies in [m, m+1), at the place
    the location says: on m, below the middle, on it or above it. *)
Definition located (A B m : Z) (l : location) : Prop :=
  m * B <= A < (m + 1) * B /\
  match l with
  | loc_Exact => A = m * B
  | loc_Inexact c => m * B < A /\ (2 * A ?= (2 * m + 1) * B) = c
  end.

(** A character that is not a decimal digit. *)
Definition not_a_digit (c : ascii) : Prop := uint_of_char c (Some Decimal.Nil) = None.

Section Runs.

Context {R : RandSource}.

(** The events a computation adds to the log. *)
Definition trace {A} (m : M A) (w : World) : list Event :=
  skipn (List.length (log w)) (log (snd (m w))).

Definition ptrace {A} (m : Proc A) (w : World) : list Event :=
  skipn (List.length (log w)) (log (snd (m w))).

(** *** One unit of work, replayed from the world it starts in *)

Definition switch_draw (modulus : Z) (s : rng_state) : Z * rng_state :=
  match modulus with
  | 0 => Int63n 17001 s
  | 1 => Int63n 8007 s
  | 2 => Int63n 917 s
  | 3 => Int63n 87 s
  | 4 => Int63n 1173 s
  | _ => (0, s)
  end.

Definition switch_events (modulus : Z) (s : rng_state) : list Event :=
  match modulus with
  | 0 => [EvInt63n 17001 (fst (Int63n 17001 s))]
  | 1 => [EvInt63n 8007 (fst (Int63n 8007 s))]
  | 2 => [EvInt63n 917 (fst (Int63n 917 s))]
  | 3 => [EvInt63n 87 (fst (Int63n 87 s))]
  | 4 => [EvInt63n 1173 (fst (Int63n 1173 s))]
  | _ => []
  end.

Fixpoint line_draws (rounds : nat) (s : rng_state) : list Z * rng_state :=
  match rounds with
  | O => ([], s)
  | S rounds' =>
      let (x, s1) := Int63n 999 s in
      let (xs, s2) := line_draws rounds' s1 in
      (x :: xs, s2)
  end.

Fixpoint line_events (i : Z) (xs : list Z) : list Event :=
  match xs with
  | [] => []
  | x :: r => EvInt63n 999 x :: EvStdout (line_length_line i x) :: line_events (i + 1) r
  end.

(** The time that passes before the k-th clock reading from [w] on. *)
Definition nth_drift (k : nat) (w : World) : Z := Z.of_N (nth k (drift w) 0%N).

Definition start_time (w : World) : Z := clock w + nth_drift 0 w.
Definition switch_time (w : World) : Z := start_time w + nth_drift 1 w.
Definition modulus_of (w : World) : Z := Go.rem (Unix (switch_time w)) 5.
Definition sleep_of (w : World) : Z := fst (switch_draw (modulus_of w) (rng w)).
Definition sleep_ns (w : World) : Z := Go.wrap64 (sleep_of w * Millisecond).
Definition since_time (w : World) : Z :=
  switch_time w + Z.max 0 (sleep_ns w) + nth_drift 2 w.
Definition elapsed (w : World) : Z :=
  Z.max (- Go.max_int64 - 1) (Z.min Go.max_int64 (since_time w - start_time w)).
Definition latency_of (w : World) : Float64.float64 :=
  Float64.div (Float64.of_int64 (elapsed w)) Float64.f1e6.
Definition nr_of (w : World) : Z :=
  fst (Int31n 7 (snd (switch_draw (modulus_of w) (rng w)))).
Definition lines_of (w : World) : list Z :=
  fst (line_draws (Z.to_nat (nr_of w))
         (snd (Int31n 7 (snd (switch_draw (modulus_of w) (rng w)))))).
Definition rng_after (w : World) : rng_state :=
  snd (line_draws (Z.to_nat (nr_of w))
         (snd (Int31n 7 (snd (switch_draw (modulus_of w) (rng w)))))).

(** A unit's events up to the end of its sleep. *)
Definition unit_pre (ctx : Context) (w : World) : list Event :=
  [EvNow (start_time w); EvStart (next_span w) (ctx_span ctx) "ExecuteRequest";
   EvNow (switch_time w)]
  ++ switch_events (modulus_of w) (rng w)
  ++ [EvSleep (sleep_ns w)].

(** A unit's events up to its last line of line lengths. *)
Definition head_events (ctx : Context) (w : World) : list Event :=
  [EvNow (start_time w); EvStart (next_span w) (ctx_span ctx) "ExecuteRequest";
   EvNow (switch_time w)]
  ++ switch_events (modulus_of w) (rng w)
  ++ [EvSleep (sleep_ns w); EvEnd (next_span w); EvSince (since_time w);
      EvInt31n 7 (nr_of w)]
  ++ line_events 0 (lines_of w).

Definition latency_event (w : World) : Event :=
  EvStdout (latency_line (latency_of w)).

(** The world in which the unit prints its latency or, in f1, calls f2. *)
Definition after_head (ctx : Context) (w : World) : World :=
  mkWorld (rng_after w) (since_time w) (skipn 3 (drift w)) (S (next_span w))
          (collab w) (log w ++ head_events ctx w).

Definition childCtx_of (ctx : Context) (w : World) : Context :=
  mkContext (Some (next_span w)) (ctx_labels ctx).

Definition f2_events (ctx : Context) (w : World) : list Event :=
  head_events ctx w ++ [latency_event w].

Definition f1_events (ctx : Context) (w : World) : list Event :=
  head_events ctx w
  ++ f2_events (childCtx_of ctx w) (after_head ctx w)
  ++ [latency_event w].

Definition after_f2 (ctx : Context) (w : World) : World :=
  mkWorld (rng_after w) (since_time w) (skipn 3 (drift w)) (S (next_span w))
          (collab w) (log w ++ f2_events ctx w).

Definition after_f1 (ctx : Context) (w : World) : World :=
  let w1 := after_f2 (childCtx_of ctx w) (after_head ctx w) in
  mkWorld (rng w1) (clock w1) (drift w1) (next_span w1) (collab w1)
          (log w ++ f1_events ctx w).

(** The worlds between the rounds of the loop. *)
Fixpoint after_rounds (n : nat) (ctx : Context) (w : World) : World :=
  match n with
  | O => w
  | S n' => after_rounds n' ctx (after_f1 ctx w)
  end.

Fixpoint rounds_events (n : nat) (ctx : Context) (w : World) : list Event :=
  match n with
  | O => []
  | S n' => f1_events ctx w ++ rounds_events n' ctx (after_f1 ctx w)
  end.


(** What the generator decides in one unit of work, from the modulus the
    switch sees and the state of the generator. *)
Definition unit_samples (modulus : Z) (s : rng_state) : list Event * rng_state :=
  let sd := switch_draw modulus s in
  let nr := Int31n 7 (snd sd) in
  let ld := line_draws (Z.to_nat (fst nr)) (snd nr) in
  (switch_events modulus s
     ++ [EvSleep (Go.wrap64 (fst sd * Millisecond)); EvInt31n 7 (fst nr)]
     ++ map (EvInt63n 999) (fst ld),
   snd ld).

(** The closure that initProvider returns, run in the world initProvider
    leaves. *)
Definition shutdown_trace (w : World) : list Event :=
  match initProvider w with
  | (Returned shutdown, w') => ptrace shutdown w'
  | (Exited _, _) => []
  end.

(** The claim that the closure makes its three calls, as a property of the
    world. *)
Definition shutdown_runs_all_three (w : World) : Prop :=
  shutdown_trace w =
  [EvPipeline TracerProviderShutdown; EvPipeline ExporterShutdown;
   EvPipeline PusherStop].

(** The claim that the inner span ends before the outer one, as a property
    of one call of f1. *)
Definition inner_ends_first (ctx : Context) (w : World) : Prop :=
  occurs_before (EvEnd (S (next_span w))) (EvEnd (next_span w))
                (trace (f1 ctx) w) = true.


(** The world in which main enters its loop: initProvider has made its
    calls, the clock has been read once and the generator is seeded with
    that reading. *)
Definition loop_entry (w : World) : World :=
  let t := clock w + nth_drift 0 w in
  mkWorld (NewSource (UnixNano t)) t (tl (drift w)) (next_span w) (collab w)
          (log w ++ init_events ++ [EvNow t]).

(** What a unit does when no case of its switch matches: no draw for the
    delay, a sleep of zero. *)
Definition unit_without_delay (ctx : Context) (w : World) : list Event :=
  [EvNow (start_time w);
   EvStart (next_span w) (ctx_span ctx) "ExecuteRequest";
   EvNow (switch_time w);
   EvSleep 0;
   EvEnd (next_span w);
   EvSince (switch_time w + nth_drift 2 w);
   EvInt31n 7 (fst (Int31n 7 (rng w)))].

End Runs.

(** A world to run the program in: a scripted generator, a clock in
    September 2020 and a few nanoseconds passing before each reading. *)
Definition demo_rand : RandSource :=
  script_rand (fun seed => [seed; 3; 1000; 2000; 3000; 50; 2; 77; 88]).

Definition demo_world : @World demo_rand :=
  @mkWorld demo_rand (@NewSource demo_rand 12345)
           1600000000123456789 [100; 200; 300; 400; 500; 600]%N 0%nat all_healthy [].

(** The same seed, 35 seconds later, with other delays before the clock
    readings. *)
Definition demo_world_later : @World demo_rand :=
  @mkWorld demo_rand (@NewSource demo_rand 12345)
           1600000035123456789 [7; 7000; 1; 90000; 12; 5]%N 4%nat all_healthy [].

(** The same world, with a collector that does not answer when the exporter
    is shut down. *)
Definition demo_world_stuck_exporter : @World demo_rand :=
  @mkWorld demo_rand (@NewSource demo_rand 12345) 1600000000123456789 [] 0%nat
           (mkCollaborators None None None (Some "context deadline exceeded")) [].

(** A world whose clock is set just over two seconds before the Unix epoch
    (Unix second -3). *)
Definition demo_world_1969 : @World demo_rand :=
  @mkWorld demo_rand [6; 500] (-2000000001) [] 0%nat all_healthy [].

(** The demo world five seconds on: another clock and other spans, the
    same generator and the same time passing before each reading. *)
Definition demo_world_five_seconds_on : @World demo_rand :=
  @mkWorld demo_rand (@NewSource demo_rand 12345)
           1600000005123456789 [100; 200; 300; 400; 500; 600]%N 2%nat all_healthy
           [EvNow 1600000000123456889].

(** * Properties *)

(** ** The program at work *)

Example demo_round_prints :
  stdout (trace (f1 Background) demo_world) =
  map (fun line => (line ++ Go.newline)%string)
      ["#0: LineLength: 1By"; "#1: LineLength: 2By"; "#2: LineLength: 3By";
       "#0: LineLength: 77By"; "#1: LineLength: 88By";
       "Latency: 50.001ms"; "Latency: 12345.001ms"].
Proof. vm_compute. reflexivity. Qed.

Example demo_round_spans :
  filter (fun e => match e with EvStart _ _ _ | EvEnd _ => true | _ => false end)
         (trace (f1 Background) demo_world) =
  [EvStart 0%nat None "ExecuteRequest"; EvEnd 0%nat;
   EvStart 1%nat (Some 0%nat) "ExecuteRequest"; EvEnd 1%nat].
Proof. vm_compute. reflexivity. Qed.

Example demo_latencies :
  map (fun d => Float64.fmt_f3 (Float64.div (Float64.of_int64 d) Float64.f1e6))
      [0; 499; 500; 4500; 999500; 50001100; 9223372036854775807] =
  ["0.000"; "0.000"; "0.001"; "0.004"; "1.000"; "50.001"; "9223372036854.775"].
Proof. vm_compute. reflexivity. Qed.

Example demo_failed_start :
  @main demo_rand 3
    (@mkWorld demo_rand [] 0 [] 0%nat
       (mkCollaborators (Some "connection refused") None None None) []) =
  (Exited 1,
   @mkWorld demo_rand [] 0 [] 0%nat
     (mkCollaborators (Some "connection refused") None None None)
     [EvPipeline (NewExporter "0.0.0.0:55680");
      EvStderr "failed to create exporter: connection refused"; EvExit 1]).
Proof. vm_compute. reflexivity. Qed.

(** ** The float64 of a latency is a finite, non-negative number *)

Section FloatBounds.

Lemma digits2_size (p : positive) : digits2_pos p = Pos.size p.
Proof. induction p; cbn; congruence. Qed.

Lemma Zdigits2_le (m k : Z) : 0 <= k -> 0 <= m < 2 ^ k -> Zdigits2 m <= k.
Proof.
  intros Hk [H0 H]. destruct m as [|p|p]; cbn; try lia.
  rewrite digits2_size.
  assert (2 ^ Zpos (Pos.size p) <= 2 * Zpos p) as Hs.
  { rewrite <- Pos2Z.inj_pow. change (2 * Zpos p) with (Zpos p~0).
    apply Pos2Z.pos_le_pos, Pos.size_le. }
  destruct (Z_lt_le_dec k (Zpos (Pos.size p))) as [Hlt|]; [|assumption].
  exfalso.
  assert (2 ^ (k + 1) <= 2 ^ Zpos (Pos.size p)) by (apply Z.pow_le_mono_r; lia).
  rewrite Z.pow_add_r in * by lia. lia.
Qed.

Lemma Zdigits2_pos (p : positive) : 1 <= Zdigits2 (Zpos p).
Proof. cbn. lia. Qed.

Lemma shr_1_bounds (mrs : shr_record) (b : Z) :
  0 <= shr_m mrs <= b -> 0 <= shr_m (shr_1 mrs) <= b.
Proof. destruct mrs as [m r s]; cbn. destruct m as [|[p|p|]|p]; cbn; lia. Qed.

Lemma iter_pos_inv {A} (P : A -> Prop) (f : A -> A) :
  (forall x, P x -> P (f x)) -> forall n x, P x -> P (iter_pos f n x).
Proof. intros Hf. induction n as [n IH|n IH|]; cbn; intros x Hx; auto. Qed.

Lemma shr_bounds (mrs : shr_record) (e n b : Z) :
  0 <= shr_m mrs <= b ->
  0 <= shr_m (fst (shr mrs e n)) <= b /\ snd (shr mrs e n) = e + Z.max 0 n.
Proof.
  intros H. destruct n as [|p|p]; cbn [shr fst snd]; try (split; [exact H | lia]).
  split; [|lia].
  apply (iter_pos_inv (fun x => 0 <= shr_m x <= b)); [|exact H].
  intros x Hx. apply shr_1_bounds, Hx.
Qed.

Lemma shr_record_of_loc_m (m : Z) (l : location) : shr_m (shr_record_of_loc m l) = m.
Proof. destruct l as [|[]]; reflexivity. Qed.

Lemma shr_fexp_bounds (m e : Z) (l : location) :
  0 <= m ->
  0 <= shr_m (fst (shr_fexp 53 1024 m e l)) <= m /\
  snd (shr_fexp 53 1024 m e l) =
    e + Z.max 0 (Z.max (Zdigits2 m + e - 53) (-1074) - e).
Proof.
  intros H. unfold shr_fexp. apply shr_bounds. rewrite shr_record_of_loc_m. lia.
Qed.

Lemma round_nearest_even_bounds (m : Z) (l : location) :
  0 <= m -> 0 <= round_nearest_even m l <= m + 1.
Proof.
  intros H. unfold round_nearest_even.
  destruct l as [|[]]; try destruct (Z.even m); lia.
Qed.

Lemma binary_round_aux_bounds (s : bool) (m e : Z) (l : location) (K : Z) :
  0 <= K <= 1000 -> 0 <= m < 2 ^ K -> e + 2 * K <= 971 ->
  rounded s K e (Z.max (e + 2 * K) (K - 1074)) (binary_round_aux 53 1024 s m e l).
Proof.
  intros [HK HK'] [Hm0 Hm] He. unfold binary_round_aux.
  destruct (shr_fexp_bounds m e l Hm0) as [Hb1 He1].
  destruct (shr_fexp 53 1024 m e l) as [mrs1 e1]. cbn [fst snd] in Hb1, He1.
  pose proof (round_nearest_even_bounds (shr_m mrs1) (loc_of_shr_record mrs1)
                (proj1 Hb1)) as Hr.
  set (m2 := round_nearest_even (shr_m mrs1) (loc_of_shr_record mrs1)) in *.
  destruct (shr_fexp_bounds m2 e1 loc_Exact (proj1 Hr)) as [Hb2 He2].
  destruct (shr_fexp 53 1024 m2 e1 loc_Exact) as [mrs2 e2]. cbn [fst snd] in Hb2, He2.
  assert (2 ^ (K + 1) = 2 * 2 ^ K) as Hp by (rewrite Z.pow_add_r by lia; lia).
  assert (Zdigits2 m <= K) as Hd1 by (apply Zdigits2_le; lia).
  assert (Zdigits2 m2 <= K + 1) as Hd2 by (apply Zdigits2_le; lia).
  destruct (shr_m mrs2) as [|p|p] eqn:E; cbn [rounded]; [reflexivity | | lia].
  replace (e2 <=? 1024 - 53) with true by (symmetry; apply Z.leb_le; lia).
  cbn [rounded]. repeat split; lia.
Qed.

Lemma iter_xO (m d : positive) : Zpos (Pos.iter xO m d) = Zpos m * 2 ^ Zpos d.
Proof.
  induction d as [|d IH] using Pos.peano_ind.
  - cbn. lia.
  - rewrite Pos.iter_succ, Pos2Z.inj_xO, IH, Pos2Z.inj_succ, Z.pow_succ_r by lia. lia.
Qed.

Lemma of_int64_bounds (d : Z) :
  0 <= d < 2 ^ 63 ->
  rounded false 115 (-52) 230 (Float64.of_int64 d).
Proof.
  intros [H0 H]. unfold Float64.of_int64, binary_normalize.
  destruct d as [|p|p]; [reflexivity | | lia].
  unfold binary_round, shl_align.
  pose proof (Zdigits2_pos p) as Hd. cbn [Zdigits2] in Hd.
  assert (Zpos (digits2_pos p) <= 63) as Hd' by (apply (Zdigits2_le (Zpos p)); lia).
  unfold fexp, emin, Float64.prec, Float64.emax.
  set (k := Z.max (Z.pos (digits2_pos p) + 0 - 53) (3 - 1024 - 53) - 0).
  assert (-52 <= k <= 10) as Hk by (unfold k; lia).
  assert (rounded false 115 (-52) (Z.max (0 + 2 * 115) (115 - 1074))
            (binary_round_aux 53 1024 false (Zpos p) 0 loc_Exact)) as Hsame.
  { pose proof (binary_round_aux_bounds false (Zpos p) 0 loc_Exact 115) as Hb.
    assert (2 ^ 63 <= 2 ^ 115) by (apply Z.pow_le_mono_r; lia).
    specialize (Hb ltac:(lia) ltac:(lia) ltac:(lia)).
    destruct (binary_round_aux 53 1024 false (Zpos p) 0 loc_Exact); cbn [rounded] in *;
      intuition lia. }
  destruct k as [|q|q] eqn:Ek; try exact Hsame.
  pose proof (binary_round_aux_bounds false (Zpos (Pos.iter xO p q))
                (Z.max (Z.pos (digits2_pos p) + 0 - 53) (3 - 1024 - 53))
                loc_Exact 115) as Hb.
  rewrite iter_xO in Hb.
  assert (2 ^ Zpos q <= 2 ^ 52) by (apply Z.pow_le_mono_r; lia).
  assert (2 ^ 115 = 2 ^ 63 * 2 ^ 52) as Hp by reflexivity.
  assert (0 < 2 ^ Zpos q) by (apply Z.pow_pos_nonneg; lia).
  specialize (Hb ltac:(lia) ltac:(nia) ltac:(lia)).
  rewrite iter_xO.
  destruct (binary_round_aux 53 1024 false (Zpos p * 2 ^ Zpos q) _ loc_Exact);
    cbn [rounded] in *; intuition lia.
Qed.

Lemma div_1e6_bounds (x : spec_float) :
  rounded false 115 (-52) 230 x ->
  Float64.is_finite (Float64.div x Float64.f1e6) = true /\
  Float64.sign (Float64.div x Float64.f1e6) = false.
Proof.
  intros Hx.
  change Float64.f1e6 with (S754_finite false 8589934592000000 (-33)).
  destruct x as [s| |  |s m e]; cbn [rounded] in Hx; try contradiction.
  - subst s. split; reflexivity.
  - destruct Hx as (-> & Hm & He).
    unfold Float64.div, SFdiv, SFdiv_core_binary.
    change (Zdigits2 8589934592000000) with 53.
    pose proof (Zdigits2_pos m) as Hd1.
    assert (Zdigits2 (Zpos m) <= 116) as Hd1' by (apply Zdigits2_le; lia).
    unfold fexp, emin, Float64.prec, Float64.emax.
    set (e' := Z.min (Z.max (Zdigits2 (Z.pos m) + e - (53 + -33) - 53) (3 - 1024 - 53))
                     (e - -33)).
    set (sh := e - -33 - e').
    assert (0 <= sh <= 105) as Hsh by (unfold sh, e'; lia).
    set (m' := match sh with
               | 0 => Z.pos m
               | Z.pos _ => Z.shiftl (Z.pos m) sh
               | Z.neg _ => 0
               end).
    assert (0 <= m' < 2 ^ 221) as Hm'.
    { assert (m' = Zpos m * 2 ^ sh) as ->.
      { unfold m'. destruct sh as [|q|q] eqn:Es; [lia | | lia].
        apply Z.shiftl_mul_pow2. lia. }
      assert (2 ^ sh <= 2 ^ 105) by (apply Z.pow_le_mono_r; lia).
      assert (0 < 2 ^ sh) by (apply Z.pow_pos_nonneg; lia).
      assert (2 ^ 221 = 2 ^ (115 + 1) * 2 ^ 105) as -> by reflexivity.
      nia. }
    pose proof (Z.div_eucl_eq m' 8589934592000000 ltac:(lia)) as Hq.
    pose proof (Z.mod_pos_bound m' 8589934592000000 ltac:(lia)) as Hr.
    unfold Z.modulo in Hr.
    destruct (Z.div_eucl m' 8589934592000000) as [q r].
    assert (0 <= q < 2 ^ 221) as Hqb by nia.
    pose proof (binary_round_aux_bounds (xorb false false) q e'
                  (new_location 8589934592000000 r) 221
                  ltac:(lia) Hqb ltac:(unfold e'; lia)) as Hb.
    destruct (binary_round_aux 53 1024 (xorb false false) q e' _);
      cbn [rounded] in Hb; try contradiction.
    + subst. split; reflexivity.
    + destruct Hb as (-> & _). split; reflexivity.
Qed.

Lemma latency_float (d : Z) :
  0 <= d <= Go.max_int64 ->
  Float64.is_finite (Float64.div (Float64.of_int64 d) Float64.f1e6) = true /\
  Float64.sign (Float64.div (Float64.of_int64 d) Float64.f1e6) = false.
Proof.
  intros H. apply div_1e6_bounds, of_int64_bounds.
  unfold Go.max_int64 in H. lia.
Qed.

Lemma thousandths_nonneg (m : positive) (e : Z) : 0 <= Float64.thousandths m e.
Proof.
  unfold Float64.thousandths. destruct (0 <=? e) eqn:E.
  - apply Z.leb_le in E.
    assert (0 < 2 ^ e) by (apply Z.pow_pos_nonneg; lia). nia.
  - apply Z.leb_gt in E. unfold Float64.round_half_even.
    assert (0 < 2 ^ (- e)) by (apply Z.pow_pos_nonneg; lia).
    assert (0 <= Zpos m * 1000 / 2 ^ (- e)) by (apply Z.div_pos; lia).
    destruct (_ ?= _); try destruct (Z.even _); lia.
Qed.



(** *** float64(d) / 1e6 is correctly rounded *)

Lemma Zdigits2_bounds (p : positive) :
  2 ^ (Zdigits2 (Zpos p) - 1) <= Zpos p < 2 ^ Zdigits2 (Zpos p).
Proof.
  cbn [Zdigits2]. rewrite digits2_size.
  pose proof (Pos.size_gt p) as Hgt. pose proof (Pos.size_le p) as Hle.
  apply Pos2Z.pos_lt_pos in Hgt. apply Pos2Z.pos_le_pos in Hle.
  rewrite Pos2Z.inj_pow in Hgt, Hle. change (Zpos p~0) with (2 * Zpos p) in Hle.
  replace (Zpos (Pos.size p)) with (Zpos (Pos.size p) - 1 + 1) in Hle at 1 by lia.
  rewrite Z.pow_add_r in Hle by lia. lia.
Qed.

Lemma Zdigits2_unique (m n : Z) :
  0 < n -> 2 ^ (n - 1) <= m < 2 ^ n -> Zdigits2 m = n.
Proof.
  intros Hn [Hlo Hhi].
  assert (0 < 2 ^ (n - 1)) by (apply Z.pow_pos_nonneg; lia).
  destruct m as [|p|p]; try lia.
  pose proof (Zdigits2_bounds p) as [Hb1 Hb2].
  pose proof (Zdigits2_pos p) as Hp.
  set (k := Zdigits2 (Zpos p)) in *.
  destruct (Z.lt_trichotomy k n) as [Hlt | [Heq | Hgt]]; [exfalso | exact Heq | exfalso].
  - assert (2 ^ k <= 2 ^ (n - 1)) by (apply Z.pow_le_mono_r; lia). lia.
  - assert (2 ^ n <= 2 ^ (k - 1)) by (apply Z.pow_le_mono_r; lia). lia.
Qed.

Lemma binary_round_aux_exact (s : bool) (m : positive) (e : Z) :
  Zdigits2 (Zpos m) = 53 -> -1074 <= e <= 971 ->
  binary_round_aux 53 1024 s (Zpos m) e loc_Exact = S754_finite s m e.
Proof.
  intros Hd He. unfold binary_round_aux, shr_fexp. rewrite Hd.
  unfold fexp, emin.
  replace (Z.max (53 + e - 53) (3 - 1024 - 53) - e) with 0 by lia.
  cbn [shr shr_record_of_loc shr_m loc_of_shr_record round_nearest_even].
  rewrite Hd.
  replace (Z.max (53 + e - 53) (3 - 1024 - 53) - e) with 0 by lia.
  cbn [shr shr_record_of_loc shr_m].
  replace (e <=? 1024 - 53) with true by (symmetry; apply Z.leb_le; lia).
  reflexivity.
Qed.

(** float64(d) is d itself when d has at most 53 bits: the mantissa is d
    shifted to 53 bits, the exponent undoes the shift. *)
Lemma of_int64_exact (d : Z) :
  0 < d < 2 ^ 53 ->
  exists (m : positive) (k : Z),
    Float64.of_int64 d = S754_finite false m (- k) /\
    0 <= k <= 52 /\ Zpos m = d * 2 ^ k /\ Zdigits2 (Zpos m) = 53.
Proof.
  intros [H0 H]. destruct d as [|p|p]; try lia.
  pose proof (Zdigits2_bounds p) as [Hb1 Hb2].
  pose proof (Zdigits2_pos p) as Hp.
  assert (Zdigits2 (Zpos p) <= 53) as Hn by (apply Zdigits2_le; lia).
  unfold Float64.of_int64, binary_normalize, binary_round, shl_align, fexp, emin,
    Float64.prec, Float64.emax.
  cbn [Zdigits2] in *.
  set (n := Zpos (digits2_pos p)) in *.
  replace (Z.max (n + 0 - 53) (3 - 1024 - 53) - 0) with (n - 53) by lia.
  replace (Z.max (n + 0 - 53) (3 - 1024 - 53)) with (n - 53) by lia.
  destruct (n - 53) as [|q|q] eqn:Eq; try lia.
  - exists p, 0. rewrite binary_round_aux_exact; [| cbn [Zdigits2]; fold n; lia | lia].
    repeat split; lia.
  - exists (Pos.iter xO p q), (Zpos q).
    assert (Zdigits2 (Zpos (Pos.iter xO p q)) = 53) as Hd.
    { apply Zdigits2_unique; [lia|]. rewrite iter_xO.
      assert (2 ^ (53 - 1) = 2 ^ (n - 1) * 2 ^ Zpos q) as ->
          by (rewrite <- Z.pow_add_r by lia; f_equal; lia).
      assert (2 ^ 53 = 2 ^ n * 2 ^ Zpos q) as ->
          by (rewrite <- Z.pow_add_r by lia; f_equal; lia).
      assert (0 < 2 ^ Zpos q) by (apply Z.pow_pos_nonneg; lia).
      nia. }
    rewrite binary_round_aux_exact; [| exact Hd | lia].
    rewrite iter_xO. repeat split; try lia. cbn [Zdigits2] in Hd. exact Hd.
Qed.


Lemma new_location_located (A B : Z) :
  0 < B -> Z.even B = true ->
  located A B (A / B) (new_location B (A mod B)).
Proof.
  intros HB He.
  pose proof (Z.div_mod A B ltac:(lia)) as Hdm.
  pose proof (Z.mod_pos_bound A B HB) as Hr.
  unfold located, new_location, new_location_even. rewrite He.
  split; [nia|].
  destruct (A mod B =? 0) eqn:E0.
  - apply Z.eqb_eq in E0. nia.
  - apply Z.eqb_neq in E0. split; [nia|].
    destruct (Z.compare_spec (2 * (A mod B)) B) as [H|H|H];
      [apply Z.compare_eq_iff | apply Z.compare_lt_iff | apply Z.compare_gt_iff]; nia.
Qed.

Lemma shr_1_spec (m : Z) (r s : bool) :
  0 <= m ->
  exists (m' : Z) (b : bool),
    shr_1 (Build_shr_record m r s) = Build_shr_record m' b (r || s) /\
    m = 2 * m' + (if b then 1 else 0) /\ 0 <= m'.
Proof.
  intros Hm. destruct m as [|[p|p|]|p]; try lia.
  - exists 0, false. repeat split; lia.
  - exists (Zpos p), true. repeat split; lia.
  - exists (Zpos p), false. repeat split; lia.
  - exists 0, true. repeat split; lia.
Qed.

Lemma compare_Lt (a b : Z) : a < b -> (a ?= b) = Lt.
Proof. apply Z.compare_lt_iff. Qed.

Lemma compare_Gt (a b : Z) : b < a -> (a ?= b) = Gt.
Proof. apply Z.compare_gt_iff. Qed.

Lemma compare_Eq (a b : Z) : a = b -> (a ?= b) = Eq.
Proof. apply Z.compare_eq_iff. Qed.

Lemma located_inv (A B m : Z) (c : comparison) :
  (2 * A ?= (2 * m + 1) * B) = c ->
  match c with
  | Lt => 2 * A < (2 * m + 1) * B
  | Eq => 2 * A = (2 * m + 1) * B
  | Gt => (2 * m + 1) * B < 2 * A
  end.
Proof.
  intros <-. destruct (Z.compare_spec (2 * A) ((2 * m + 1) * B)); assumption.
Qed.

Lemma shr_1_located (A B m : Z) (l : location) :
  0 <= m -> 0 < B -> located A B m l ->
  exists m' : Z,
    shr_m (shr_1 (shr_record_of_loc m l)) = m' /\
    0 <= m' /\ 2 * m' <= m <= 2 * m' + 1 /\
    located A (2 * B) m' (loc_of_shr_record (shr_1 (shr_record_of_loc m l))).
Proof.
  intros Hm HB [Hb Hl]. unfold located.
  destruct l as [|c].
  - destruct (shr_1_spec m false false Hm) as (m' & b & He & Hm' & H0).
    exists m'. cbn [shr_record_of_loc]. rewrite He. cbn [shr_m loc_of_shr_record orb].
    split; [reflexivity|]. split; [exact H0|].
    destruct b; cbn [loc_of_shr_record].
    + split; [lia|]. split; [nia|]. split; [nia|]. apply compare_Eq. nia.
    + split; [lia|]. split; [nia|]. nia.
  - destruct Hl as [Hlt Hc]. apply located_inv in Hc.
    assert (exists r s, shr_record_of_loc m (loc_Inexact c) = Build_shr_record m r s
                        /\ (r || s = true)%bool) as (r & s & Hrec & Hrs).
    { destruct c; cbn; eauto. }
    destruct (shr_1_spec m r s Hm) as (m' & b & He & Hm' & H0).
    exists m'. rewrite Hrec, He, Hrs. cbn [shr_m loc_of_shr_record].
    split; [reflexivity|]. split; [exact H0|].
    destruct b; cbn [loc_of_shr_record].
    + split; [lia|]. split; [nia|]. split; [nia|]. apply compare_Gt. nia.
    + split; [lia|]. split; [nia|]. split; [nia|]. apply compare_Lt. nia.
Qed.

Lemma round_located (A B m : Z) (l : location) :
  0 < B -> located A B m l ->
  m <= round_nearest_even m l <= m + 1 /\
  Z.abs (2 * (A - round_nearest_even m l * B)) <= B.
Proof.
  intros HB [Hb Hl]. unfold round_nearest_even.
  destruct l as [|c].
  - subst A. split; [lia|]. replace (m * B - m * B) with 0 by lia. cbn. lia.
  - destruct Hl as [Hlt Hc]. apply located_inv in Hc.
    destruct c; [destruct (Z.even m)| |]; (split; [lia|]); apply Z.abs_le; nia.
Qed.


Lemma loc_of_shr_record_of_loc (m : Z) (l : location) :
  loc_of_shr_record (shr_record_of_loc m l) = l.
Proof. destruct l as [|[]]; reflexivity. Qed.

Lemma shr_fexp_step (q e : Z) (l : location) :
  2 ^ 52 <= q < 2 ^ 54 -> -1000 <= e <= 960 ->
  shr_fexp 53 1024 q e l =
  if q <? 2 ^ 53 then (shr_record_of_loc q l, e)
  else (shr_1 (shr_record_of_loc q l), e + 1).
Proof.
  intros Hq He. unfold shr_fexp, fexp, emin.
  destruct (q <? 2 ^ 53) eqn:E.
  - apply Z.ltb_lt in E.
    rewrite (Zdigits2_unique q 53) by (change (53 - 1) with 52; lia).
    replace (Z.max (53 + e - 53) (3 - 1024 - 53) - e) with 0 by lia.
    reflexivity.
  - apply Z.ltb_ge in E.
    rewrite (Zdigits2_unique q 54) by (change (54 - 1) with 53; lia).
    replace (Z.max (54 + e - 53) (3 - 1024 - 53) - e) with 1 by lia.
    reflexivity.
Qed.

(** Rounding a quotient A/B of 53 or 54 bits, located by (q, l), to
    binary64: the result is a finite number mf * 2^(e+sh+rn), half a unit
    in the last place from the quotient at most; sh and rn are the shifts
    before and after the rounding. *)
Lemma binary_round_aux_located (A B q e : Z) (l : location) :
  0 < B -> located A B q l -> 2 ^ 52 <= q < 2 ^ 54 -> -1000 <= e <= 900 ->
  exists (mf : positive) (sh rn : Z),
    binary_round_aux 53 1024 false q e l = S754_finite false mf (e + sh + rn) /\
    0 <= sh <= 1 /\ 0 <= rn <= 1 /\
    Z.abs (2 * (A - Zpos mf * 2 ^ (sh + rn) * B)) <= 2 ^ sh * B.
Proof.
  intros HB Hloc Hq He.
  assert (exists m' l' sh,
            shr_fexp 53 1024 q e l = (shr_record_of_loc m' l', e + sh) /\
            0 <= sh <= 1 /\ 2 ^ 52 <= m' < 2 ^ 53 /\
            located A (2 ^ sh * B) m' l') as (m' & l' & sh & Hs & Hsh & Hm' & Hl').
  { rewrite shr_fexp_step by lia.
    destruct (q <? 2 ^ 53) eqn:E.
    - apply Z.ltb_lt in E. exists q, l, 0.
      rewrite Z.add_0_r. change (2 ^ 0 * B) with (1 * B). rewrite Z.mul_1_l.
      repeat split; try lia; apply Hloc.
    - apply Z.ltb_ge in E.
      destruct (shr_1_located A B q l ltac:(lia) HB Hloc) as (m' & Hm & H0 & Hb & Hl).
      exists m', (loc_of_shr_record (shr_1 (shr_record_of_loc q l))), 1.
      change (2 ^ 1 * B) with (2 * B).
      split.
      { f_equal. rewrite <- Hm.
        destruct (shr_1 (shr_record_of_loc q l)) as [x [|] [|]]; reflexivity. }
      split; [lia|]. split; [lia|]. exact Hl. }
  assert (0 < 2 ^ sh * B) as HB' by (destruct Hsh; assert (0 < 2 ^ sh) by (apply Z.pow_pos_nonneg; lia); nia).
  destruct (round_located A (2 ^ sh * B) m' l' HB' Hl') as [Hr Habs].
  unfold binary_round_aux. rewrite Hs.
  rewrite shr_record_of_loc_m, loc_of_shr_record_of_loc.
  set (mr := round_nearest_even m' l') in *. clearbody mr.
  rewrite shr_fexp_step by lia.
  destruct (mr <? 2 ^ 53) eqn:E.
  - apply Z.ltb_lt in E. cbn [shr_record_of_loc shr_m].
    destruct mr as [|pm|pm] eqn:Em; try lia.
    replace (e + sh <=? 1024 - 53) with true by (symmetry; apply Z.leb_le; lia).
    exists pm, sh, 0. rewrite !Z.add_0_r.
    split; [reflexivity|]. split; [lia|]. split; [lia|].
    rewrite <- Z.mul_assoc. exact Habs.
  - apply Z.ltb_ge in E.
    assert (mr = 9007199254740992) as -> by lia.
    cbn [shr_record_of_loc shr_1 shr_m].
    replace (e + sh + 1 <=? 1024 - 53) with true by (symmetry; apply Z.leb_le; lia).
    exists 4503599627370496%positive, sh, 1.
    split; [reflexivity|]. split; [lia|]. split; [lia|].
    rewrite Z.pow_add_r by lia. change (2 ^ 1) with 2.
    replace (4503599627370496 * (2 ^ sh * 2) * B) with (9007199254740992 * (2 ^ sh * B))
      by lia.
    exact Habs.
Qed.


(** float64(d) / 1e6, for a d of at most 53 bits: a finite number
    mf * 2^(-E) that is, in nanoseconds, less than 1 away from d. *)
Lemma div_1e6_close (d : Z) :
  0 < d < 2 ^ 53 ->
  exists (mf : positive) (E : Z),
    Float64.div (Float64.of_int64 d) Float64.f1e6 = S754_finite false mf (- E) /\
    18 <= E <= 72 /\
    Z.abs (d * 2 ^ E - Zpos mf * 1000000) < 2 ^ E.
Proof.
  intros Hd.
  destruct (of_int64_exact d Hd) as (m1 & k & Hx & Hk & Hm1 & Hd1).
  rewrite Hx.
  change Float64.f1e6 with (S754_finite false 8589934592000000 (-33)).
  unfold Float64.div, SFdiv, SFdiv_core_binary. rewrite Hd1.
  change (Zdigits2 8589934592000000) with 53.
  unfold fexp, emin, Float64.prec, Float64.emax.
  replace (Z.min (Z.max (53 + - k - (53 + -33) - 53) (3 - 1024 - 53)) (- k - -33))
    with (- k - 20) by lia.
  replace (- k - -33 - (- k - 20)) with 53 by lia.
  rewrite Z.shiftl_mul_pow2 by lia.
  pose proof (Zdigits2_bounds m1) as Hb. rewrite Hd1 in Hb.
  change (2 ^ (53 - 1)) with 4503599627370496 in Hb.
  change (2 ^ 53) with 9007199254740992 in *.
  set (A := Zpos m1 * 9007199254740992).
  set (B := 8589934592000000).
  pose proof (new_location_located A B ltac:(unfold B; lia) eq_refl) as Hloc.
  unfold Z.div, Z.modulo in Hloc.
  assert (2 ^ 52 <= A / B < 2 ^ 54) as Hq.
  { change (2 ^ 52) with 4503599627370496. change (2 ^ 54) with 18014398509481984.
    split; [apply Z.div_le_lower_bound | apply Z.div_lt_upper_bound]; unfold A, B; lia. }
  unfold Z.div in Hq.
  destruct (Z.div_eucl A B) as [q r].
  destruct (binary_round_aux_located A B q (- k - 20) _ ltac:(unfold B; lia) Hloc Hq
              ltac:(lia)) as (mf & sh & rn & Hres & Hsh & Hrn & Habs).
  cbn [xorb]. rewrite Hres.
  exists mf, (k + 20 - sh - rn).
  split; [f_equal; lia|]. split; [lia|].
  set (E := k + 20 - sh - rn) in *.
  assert (2 ^ k * 9007199254740992 = 2 ^ E * 2 ^ (33 + sh + rn)) as HP.
  { change 9007199254740992 with (2 ^ 53).
    rewrite <- !Z.pow_add_r by lia. f_equal. unfold E. lia. }
  assert (A = d * 2 ^ E * 2 ^ (33 + sh + rn)) as HA
      by (unfold A; rewrite Hm1; lia).
  assert (2 ^ 18 <= 2 ^ E) as HE18 by (apply Z.pow_le_mono_r; lia).
  assert (rn = 0 -> 2 ^ 19 <= 2 ^ E) as HE19
      by (intros Hz; apply Z.pow_le_mono_r; lia).
  change (2 ^ 18) with 262144 in HE18. change (2 ^ 19) with 524288 in HE19.
  clearbody E. clear Hres Hloc HP. rewrite HA in Habs. unfold B in Habs.
  generalize dependent (2 ^ E). intros P HP18 HP19 Habs.
  assert (sh = 0 \/ sh = 1) as [-> | ->] by lia;
    (assert (rn = 0 \/ rn = 1) as [-> | ->] by lia);
    cbn [Z.add Z.pow Z.pow_pos Pos.iter Z.mul Pos.mul Pos.add Pos.succ] in Habs;
    try specialize (HP19 eq_refl); lia.
Qed.


Lemma round_half_even_close (num den : Z) :
  0 < den ->
  Z.abs (2 * (Float64.round_half_even num den * den - num)) <= den.
Proof.
  intros Hden. unfold Float64.round_half_even.
  pose proof (Z.div_mod num den ltac:(lia)) as Hdm.
  pose proof (Z.mod_pos_bound num den Hden) as Hr.
  destruct (Z.compare_spec (2 * (num mod den)) den) as [H|H|H];
    [destruct (Z.even (num / den))| |]; apply Z.abs_le; nia.
Qed.

(** The verb %.3f applied to float64(d) / 1e6 prints d nanoseconds in
    milliseconds, rounded to the nearest microsecond: the number printed
    is k / 1000 for a k at most 500 ns from d. *)
Lemma fmt_latency_close (d : Z) :
  0 <= d < 2 ^ 53 ->
  exists k : Z,
    Float64.fmt_f3 (Float64.div (Float64.of_int64 d) Float64.f1e6)
    = Float64.fixed3 false k /\
    0 <= k /\ Z.abs (1000 * k - d) <= 500.
Proof.
  intros [H0 H].
  destruct (Z.eq_dec d 0) as [-> | Hnz].
  { exists 0. repeat split; cbn; lia. }
  destruct (div_1e6_close d ltac:(lia)) as (mf & E & Hq & HE & Hc).
  rewrite Hq. cbn [Float64.fmt_f3]. unfold Float64.thousandths.
  replace (0 <=? - E) with false by (symmetry; apply Z.leb_gt; lia).
  rewrite Z.opp_involutive.
  assert (0 < 2 ^ E) as HP by (apply Z.pow_pos_nonneg; lia).
  pose proof (round_half_even_close (Zpos mf * 1000) (2 ^ E) HP) as Hk.
  pose proof (thousandths_nonneg mf (- E)) as Hk0.
  unfold Float64.thousandths in Hk0.
  replace (0 <=? - E) with false in Hk0 by (symmetry; apply Z.leb_gt; lia).
  rewrite Z.opp_involutive in Hk0.
  set (k := Float64.round_half_even (Zpos mf * 1000) (2 ^ E)) in *. clearbody k.
  exists k. split; [reflexivity|]. split; [exact Hk0|].
  generalize dependent (2 ^ E). intros P Hc HP Hk.
  apply Z.abs_le. apply Z.abs_lt in Hc. apply Z.abs_le in Hk.
  split; nia.
Qed.

End FloatBounds.


(** ** Symbolic execution of the simulator *)

Section RunLemmas.

Context {R : RandSource}.

Lemma world_eta (w : World) :
  mkWorld (rng w) (clock w) (drift w) (next_span w) (collab w) (log w) = w.
Proof. destruct w; reflexivity. Qed.

Lemma time_Now_run (w : World) :
  time_Now w =
  (clock w + Z.of_N (hd 0%N (drift w)),
   mkWorld (rng w) (clock w + Z.of_N (hd 0%N (drift w))) (tl (drift w)) (next_span w)
           (collab w) (log w ++ [EvNow (clock w + Z.of_N (hd 0%N (drift w)))])).
Proof. reflexivity. Qed.

Lemma time_Since_run (start : Z) (w : World) :
  time_Since start w =
  (Z.max (- Go.max_int64 - 1)
         (Z.min Go.max_int64 (clock w + Z.of_N (hd 0%N (drift w)) - start)),
   mkWorld (rng w) (clock w + Z.of_N (hd 0%N (drift w))) (tl (drift w)) (next_span w)
           (collab w) (log w ++ [EvSince (clock w + Z.of_N (hd 0%N (drift w)))])).
Proof. reflexivity. Qed.

Lemma time_Sleep_run (d : Z) (w : World) :
  time_Sleep d w =
  (tt, mkWorld (rng w) (clock w + Z.max 0 d) (drift w) (next_span w) (collab w)
               (log w ++ [EvSleep d])).
Proof. reflexivity. Qed.

Lemma tracer_Start_run (ctx : Context) (name : string) (w : World) :
  tracer_Start ctx name w =
  ((mkContext (Some (next_span w)) (ctx_labels ctx), next_span w),
   mkWorld (rng w) (clock w) (drift w) (S (next_span w)) (collab w)
           (log w ++ [EvStart (next_span w) (ctx_span ctx) name])).
Proof. reflexivity. Qed.

Lemma rng_Int63n_run (n : Z) (w : World) :
  rng_Int63n n w =
  (fst (Int63n n (rng w)),
   mkWorld (snd (Int63n n (rng w))) (clock w) (drift w) (next_span w) (collab w)
           (log w ++ [EvInt63n n (fst (Int63n n (rng w)))])).
Proof.
  unfold rng_Int63n, bind, draw, emit, ret.
  destruct (Int63n n (rng w)) as [v s]; reflexivity.
Qed.

Lemma rng_Int31n_run (n : Z) (w : World) :
  rng_Int31n n w =
  (fst (Int31n n (rng w)),
   mkWorld (snd (Int31n n (rng w))) (clock w) (drift w) (next_span w) (collab w)
           (log w ++ [EvInt31n n (fst (Int31n n (rng w)))])).
Proof.
  unfold rng_Int31n, bind, draw, emit, ret.
  destruct (Int31n n (rng w)) as [v s]; reflexivity.
Qed.

Lemma sleep_switch_run (modulus : Z) (w : World) :
  sleep_switch modulus w =
  (fst (switch_draw modulus (rng w)),
   mkWorld (snd (switch_draw modulus (rng w))) (clock w) (drift w) (next_span w)
           (collab w) (log w ++ switch_events modulus (rng w))).
Proof.
  unfold sleep_switch, switch_draw, switch_events.
  repeat match goal with
         | |- context [match ?x with _ => _ end] => is_var x; destruct x
         end;
    try apply rng_Int63n_run;
    unfold ret; cbn [fst snd]; rewrite app_nil_r, world_eta; reflexivity.
Qed.

Lemma line_loop_run (rounds : nat) : forall (i : Z) (w : World),
  line_loop rounds i w =
  (tt, mkWorld (snd (line_draws rounds (rng w))) (clock w) (drift w) (next_span w)
               (collab w) (log w ++ line_events i (fst (line_draws rounds (rng w))))).
Proof.
  induction rounds as [|k IH]; intros i w.
  - cbn. rewrite app_nil_r, world_eta. reflexivity.
  - cbn [line_loop line_draws]. unfold bind at 1. rewrite rng_Int63n_run.
    unfold bind at 1. unfold Printf at 1, emit at 1. rewrite IH.
    cbn [rng clock drift next_span collab log].
    destruct (Int63n 999 (rng w)) as [x s1]. cbn [fst snd].
    destruct (line_draws k s1) as [xs s2]. cbn [fst snd line_events].
    rewrite <- !app_assoc. reflexivity.
Qed.

Ltac step lem :=
  unfold bind at 1; rewrite lem;
  cbn [rng clock drift next_span collab log fst snd].

Ltac unfold_replay :=
  unfold after_f1, after_f2, f1_events, f2_events, latency_event, latency_of,
    childCtx_of, elapsed, after_head, head_events, since_time, sleep_ns,
    sleep_of, nr_of, lines_of, rng_after, modulus_of, switch_time, start_time,
    nth_drift.

(** The first part of a unit, up to its last line of line lengths. *)
Ltac run_head :=
  step time_Now_run; step tracer_Start_run; step time_Now_run;
  step sleep_switch_run; step time_Sleep_run;
  unfold bind at 1, span_End at 1, emit at 1;
  cbn [rng clock drift next_span collab log fst snd];
  step time_Since_run; step rng_Int31n_run; step line_loop_run.

Lemma f2_run (ctx : Context) (w : World) : f2 ctx w = (tt, after_f2 ctx w).
Proof.
  unfold_replay.
  destruct w as [s c d n cf l].
  cbn [rng clock drift next_span collab log].
  unfold f2. run_head.
  unfold Printf, emit. cbn [rng clock drift next_span collab log fst snd].
  repeat rewrite <- app_assoc. cbn [app].
  destruct d as [|a [|b [|e d]]]; reflexivity.
Qed.

Lemma f1_run (ctx : Context) (w : World) : f1 ctx w = (tt, after_f1 ctx w).
Proof.
  unfold f1. run_head.
  step f2_run.
  unfold Printf, emit. cbn [fst snd].
  unfold_replay.
  destruct w as [s c d n cf l].
  cbn [rng clock drift next_span collab log].
  repeat rewrite <- app_assoc. cbn [app].
  destruct d as [|a [|b [|e d]]]; reflexivity.
Qed.

Lemma simulate_run (n : nat) (ctx : Context) : forall w : World,
  simulate n ctx w = (tt, after_rounds n ctx w).
Proof.
  induction n as [|n IH]; intros w; [reflexivity|].
  cbn [simulate after_rounds]. unfold bind. rewrite f1_run. apply IH.
Qed.

Lemma skipn_app_exact {A} (l r : list A) : skipn (List.length l) (l ++ r) = r.
Proof. induction l as [|x l IH]; [reflexivity | exact IH]. Qed.

Lemma trace_f2 (ctx : Context) (w : World) : trace (f2 ctx) w = f2_events ctx w.
Proof. unfold trace. rewrite f2_run. apply skipn_app_exact. Qed.

Lemma trace_f1 (ctx : Context) (w : World) : trace (f1 ctx) w = f1_events ctx w.
Proof. unfold trace. rewrite f1_run. apply skipn_app_exact. Qed.

Lemma log_after_rounds (n : nat) (ctx : Context) : forall w : World,
  log (after_rounds n ctx w) = log w ++ rounds_events n ctx w.
Proof.
  induction n as [|n IH]; intros w; cbn [after_rounds rounds_events].
  - symmetry. apply app_nil_r.
  - rewrite IH. unfold after_f1 at 2. cbn [log]. apply eq_sym, app_assoc.
Qed.

Lemma trace_simulate (n : nat) (ctx : Context) (w : World) :
  trace (simulate n ctx) w = rounds_events n ctx w.
Proof.
  unfold trace. rewrite simulate_run. cbn [snd].
  rewrite log_after_rounds. apply skipn_app_exact.
Qed.

Lemma trace_f1_nested (ctx : Context) (w : World) :
  trace (f1 ctx) w =
  head_events ctx w ++ trace (f2 (childCtx_of ctx w)) (after_head ctx w)
    ++ [latency_event w].
Proof. rewrite trace_f1, trace_f2. reflexivity. Qed.

(** *** The clock never runs backwards *)

Lemma nth_drift_nonneg (k : nat) (w : World) : 0 <= nth_drift k w.
Proof. unfold nth_drift. apply N2Z.is_nonneg. Qed.

Lemma start_time_ge (w : World) : clock w <= start_time w.
Proof. unfold start_time. pose proof (nth_drift_nonneg 0 w). lia. Qed.

Lemma switch_time_ge (w : World) : start_time w <= switch_time w.
Proof. unfold switch_time. pose proof (nth_drift_nonneg 1 w). lia. Qed.

Lemma since_time_ge (w : World) : switch_time w <= since_time w.
Proof. unfold since_time. pose proof (nth_drift_nonneg 2 w). lia. Qed.


(** *** The switch *)

Lemma wrap64_small (z : Z) : - 2 ^ 63 <= z < 2 ^ 63 -> Go.wrap64 z = z.
Proof. intros H. unfold Go.wrap64. rewrite Z.mod_small; lia. Qed.




(** *** Reading the events of a unit *)

Lemma switch_events_silent {A} (f : Event -> list A) (m : Z) (s : rng_state) :
  (forall n v, f (EvInt63n n v) = []) -> flat_map f (switch_events m s) = [].
Proof.
  intros H. unfold switch_events.
  repeat match goal with
         | |- context [match ?x with _ => _ end] => is_var x; destruct x
         end; cbn; rewrite ?H; reflexivity.
Qed.

Lemma line_events_silent {A} (f : Event -> list A) (xs : list Z) : forall i : Z,
  (forall n v, f (EvInt63n n v) = []) -> (forall s, f (EvStdout s) = []) ->
  flat_map f (line_events i xs) = [].
Proof.
  induction xs as [|x xs IH]; intros i H1 H2; [reflexivity|].
  cbn. rewrite H1, H2, IH by assumption. reflexivity.
Qed.

Ltac read_head :=
  unfold head_events; rewrite !flat_map_app;
  rewrite switch_events_silent by reflexivity;
  rewrite ?line_events_silent by reflexivity;
  try reflexivity.

Lemma started_head (ctx : Context) (w : World) :
  started (head_events ctx w) = [next_span w].
Proof. unfold started. read_head. Qed.

Lemma ended_head (ctx : Context) (w : World) :
  ended (head_events ctx w) = [next_span w].
Proof. unfold ended. read_head. Qed.

Lemma nows_head (ctx : Context) (w : World) :
  nows (head_events ctx w) = [start_time w; switch_time w].
Proof. unfold nows. read_head. Qed.

Lemma readings_head (ctx : Context) (w : World) :
  readings (head_events ctx w) = [start_time w; switch_time w; since_time w].
Proof. unfold readings. read_head. Qed.

Lemma stdout_line_events (xs : list Z) : forall i : Z,
  stdout (line_events i xs) = numbered_lines i xs.
Proof.
  induction xs as [|x xs IH]; intros i; [reflexivity|].
  cbn. unfold stdout in IH. rewrite IH. reflexivity.
Qed.

Lemma stdout_head (ctx : Context) (w : World) :
  stdout (head_events ctx w) = numbered_lines 0 (lines_of w).
Proof.
  unfold stdout. read_head. cbn [flat_map app].
  apply stdout_line_events.
Qed.

Lemma open_spans_app (l1 l2 : list Event) : forall opened : list SpanId,
  open_spans (l1 ++ l2) opened = open_spans l2 (open_spans l1 opened).
Proof.
  induction l1 as [|e l1 IH]; intros opened; [reflexivity|].
  destruct e; cbn; apply IH.
Qed.

Lemma open_spans_switch (m : Z) (s : rng_state) (opened : list SpanId) :
  open_spans (switch_events m s) opened = opened.
Proof.
  unfold switch_events.
  repeat match goal with
         | |- context [match ?x with _ => _ end] => is_var x; destruct x
         end; reflexivity.
Qed.

Lemma open_spans_lines (xs : list Z) : forall (i : Z) (opened : list SpanId),
  open_spans (line_events i xs) opened = opened.
Proof. induction xs as [|x xs IH]; intros i opened; [reflexivity | apply IH]. Qed.

Lemma open_spans_head (ctx : Context) (w : World) :
  open_spans (head_events ctx w) [] = [].
Proof.
  unfold head_events.
  rewrite !open_spans_app, open_spans_lines. cbn.
  rewrite open_spans_switch. cbn. rewrite Nat.eqb_refl. reflexivity.
Qed.

Lemma next_span_after_head (ctx : Context) (w : World) :
  next_span (after_head ctx w) = S (next_span w).
Proof. reflexivity. Qed.

Lemma next_span_after_f1 (ctx : Context) (w : World) :
  next_span (after_f1 ctx w) = S (S (next_span w)).
Proof. reflexivity. Qed.

Lemma started_f2 (ctx : Context) (w : World) :
  started (f2_events ctx w) = [next_span w].
Proof.
  unfold f2_events, started. rewrite flat_map_app.
  fold (started (head_events ctx w)). rewrite started_head. reflexivity.
Qed.

Lemma ended_f2 (ctx : Context) (w : World) :
  ended (f2_events ctx w) = [next_span w].
Proof.
  unfold f2_events, ended. rewrite flat_map_app.
  fold (ended (head_events ctx w)). rewrite ended_head. reflexivity.
Qed.

Lemma open_spans_f2 (ctx : Context) (w : World) :
  open_spans (f2_events ctx w) [] = [].
Proof. unfold f2_events. rewrite open_spans_app, open_spans_head. reflexivity. Qed.

Lemma started_f1 (ctx : Context) (w : World) :
  started (f1_events ctx w) = [next_span w; S (next_span w)].
Proof.
  unfold f1_events, started. rewrite !flat_map_app.
  fold (started (head_events ctx w)).
  fold (started (f2_events (childCtx_of ctx w) (after_head ctx w))).
  rewrite started_head, started_f2. reflexivity.
Qed.

Lemma ended_f1 (ctx : Context) (w : World) :
  ended (f1_events ctx w) = [next_span w; S (next_span w)].
Proof.
  unfold f1_events, ended. rewrite !flat_map_app.
  fold (ended (head_events ctx w)).
  fold (ended (f2_events (childCtx_of ctx w) (after_head ctx w))).
  rewrite ended_head, ended_f2. reflexivity.
Qed.

Lemma open_spans_f1 (ctx : Context) (w : World) :
  open_spans (f1_events ctx w) [] = [].
Proof.
  unfold f1_events.
  rewrite !open_spans_app, open_spans_head, open_spans_f2. reflexivity.
Qed.

Lemma rounds_spans (n : nat) (ctx : Context) : forall w : World,
  started (rounds_events n ctx w) = seq (next_span w) (2 * n) /\
  ended (rounds_events n ctx w) = seq (next_span w) (2 * n) /\
  open_spans (rounds_events n ctx w) [] = [].
Proof.
  induction n as [|n IH]; intros w; [repeat split|].
  destruct (IH (after_f1 ctx w)) as (Hs & He & Ho).
  rewrite next_span_after_f1 in Hs, He.
  replace (2 * S n)%nat with (S (S (2 * n))) by lia.
  cbn [rounds_events seq]. unfold started, ended in *.
  rewrite !flat_map_app, open_spans_app, open_spans_f1.
  fold (started (f1_events ctx w)). fold (ended (f1_events ctx w)).
  rewrite started_f1, ended_f1, Hs, He. repeat split. exact Ho.
Qed.

(** *** Order in the log *)

Lemma event_eqb_refl (e : Event) : event_eqb e e = true.
Proof. unfold event_eqb. destruct (Event_eq_dec e e); congruence. Qed.

(** *** The draws *)

Lemma line_draws_spec (k : nat) : forall s : rng_state,
  List.length (fst (line_draws k s)) = k /\
  Forall (fun x => 0 <= x < 999) (fst (line_draws k s)).
Proof.
  induction k as [|k IH]; intros s; cbn; [split; constructor|].
  pose proof (Int63n_range 999 s ltac:(lia)) as Hx.
  destruct (Int63n 999 s) as [x s1]. cbn [fst] in Hx.
  destruct (IH s1) as [Hl Hf].
  destruct (line_draws k s1) as [xs s2]. cbn [fst] in *.
  split; [cbn; congruence | constructor; assumption].
Qed.

Lemma head_events_split (ctx : Context) (w : World) :
  head_events ctx w =
  unit_pre ctx w
  ++ [EvEnd (next_span w); EvSince (since_time w)]
  ++ [EvInt31n 7 (nr_of w)] ++ line_events 0 (lines_of w).
Proof.
  unfold head_events, unit_pre. rewrite <- !app_assoc. reflexivity.
Qed.

Lemma elapsed_eq (w : World) :
  elapsed w = Z.min Go.max_int64 (since_time w - start_time w) /\
  0 <= elapsed w <= Go.max_int64.
Proof.
  unfold elapsed.
  pose proof (switch_time_ge w). pose proof (since_time_ge w).
  unfold Go.max_int64. lia.
Qed.

Lemma latency_of_eq (w : World) :
  latency_of w =
  Float64.div (Float64.of_int64 (Z.min Go.max_int64 (since_time w - start_time w)))
              Float64.f1e6.
Proof. unfold latency_of. rewrite (proj1 (elapsed_eq w)). reflexivity. Qed.

Lemma nr_lines_spec (w : World) :
  0 <= nr_of w <= 6 /\
  List.length (lines_of w) = Z.to_nat (nr_of w) /\
  Forall (fun x => 0 <= x < 999) (lines_of w).
Proof.
  pose proof (Int31n_range 7 (snd (switch_draw (modulus_of w) (rng w)))
                ltac:(lia)) as Hn.
  destruct (line_draws_spec (Z.to_nat (nr_of w))
              (snd (Int31n 7 (snd (switch_draw (modulus_of w) (rng w))))))
    as [Hl Hf].
  unfold nr_of, lines_of in *. repeat split; try assumption; lia.
Qed.

Lemma readings_pre (ctx : Context) (w : World) :
  readings (unit_pre ctx w) = [start_time w; switch_time w].
Proof.
  unfold readings, unit_pre. rewrite !flat_map_app.
  rewrite switch_events_silent by reflexivity. reflexivity.
Qed.

Lemma trace_f2_split (ctx : Context) (w : World) :
  trace (f2 ctx) w =
  unit_pre ctx w ++ [EvEnd (next_span w); EvSince (since_time w)]
    ++ [EvInt31n 7 (nr_of w)] ++ line_events 0 (lines_of w)
    ++ [latency_event w].
Proof.
  rewrite trace_f2. unfold f2_events. rewrite head_events_split.
  rewrite <- !app_assoc. reflexivity.
Qed.

Lemma trace_f1_split (ctx : Context) (w : World) :
  trace (f1 ctx) w =
  unit_pre ctx w ++ [EvEnd (next_span w); EvSince (since_time w)]
    ++ [EvInt31n 7 (nr_of w)] ++ line_events 0 (lines_of w)
    ++ trace (f2 (childCtx_of ctx w)) (after_head ctx w)
    ++ [latency_event w].
Proof.
  rewrite trace_f1_nested, head_events_split.
  rewrite <- !app_assoc. reflexivity.
Qed.

Lemma latency_event_eq (w : World) :
  latency_event w =
  EvStdout (latency_line
    (Float64.div
       (Float64.of_int64 (Z.min Go.max_int64 (since_time w - start_time w)))
       Float64.f1e6)).
Proof. unfold latency_event. rewrite latency_of_eq. reflexivity. Qed.

Lemma readings_f2 (ctx : Context) (w : World) :
  readings (trace (f2 ctx) w) = [start_time w; switch_time w; since_time w].
Proof.
  rewrite trace_f2. unfold f2_events, readings. rewrite flat_map_app.
  fold (readings (head_events ctx w)). rewrite readings_head. reflexivity.
Qed.


Lemma numbered_lines_length (xs : list Z) : forall k : Z,
  List.length (numbered_lines k xs) = List.length xs.
Proof. induction xs as [|y xs IH]; intros k; cbn; [|rewrite IH]; reflexivity. Qed.

Lemma stdout_f2 (ctx : Context) (w : World) :
  stdout (trace (f2 ctx) w) =
  numbered_lines 0 (lines_of w) ++ [latency_line (latency_of w)].
Proof.
  rewrite trace_f2. unfold f2_events, stdout. rewrite flat_map_app.
  fold (stdout (head_events ctx w)). rewrite stdout_head. reflexivity.
Qed.

Lemma f1_events_split (ctx : Context) (w : World) :
  let w1 := after_head ctx w in
  f1_events ctx w =
  unit_pre ctx w
  ++ EvEnd (next_span w)
  :: ([EvSince (since_time w); EvInt31n 7 (nr_of w)] ++ line_events 0 (lines_of w)
      ++ [EvNow (start_time w1)])
  ++ EvStart (S (next_span w)) (Some (next_span w)) "ExecuteRequest"
  :: ([EvNow (switch_time w1)] ++ switch_events (modulus_of w1) (rng w1)
      ++ [EvSleep (sleep_ns w1)])
  ++ EvEnd (S (next_span w))
  :: ([EvSince (since_time w1); EvInt31n 7 (nr_of w1)]
      ++ line_events 0 (lines_of w1))
  ++ latency_event w1
  :: [] ++ latency_event w :: [].
Proof.
  intros w1. unfold f1_events, f2_events.
  rewrite !head_events_split. unfold unit_pre. fold w1.
  change (next_span w1) with (S (next_span w)).
  change (ctx_span (childCtx_of ctx w)) with (Some (next_span w)).
  repeat (rewrite <- app_assoc; cbn [app]). reflexivity.
Qed.

Lemma occurs_here (e : Event) (l : list Event) : occurs e (e :: l) = true.
Proof. unfold occurs. cbn. rewrite event_eqb_refl. reflexivity. Qed.

Lemma occurs_cons (e x : Event) (l : list Event) :
  occurs e l = true -> occurs e (x :: l) = true.
Proof. unfold occurs. cbn. intros ->. apply orb_true_r. Qed.

Lemma occurs_app_r (e : Event) (l1 l2 : list Event) :
  occurs e l2 = true -> occurs e (l1 ++ l2) = true.
Proof. unfold occurs. rewrite existsb_app. intros ->. apply orb_true_r. Qed.

Lemma occurs_before_here (a b : Event) (l : list Event) :
  occurs b l = true -> occurs_before a b (a :: l) = true.
Proof. cbn. intros ->. rewrite event_eqb_refl. reflexivity. Qed.

Lemma occurs_before_cons (a b x : Event) (l : list Event) :
  occurs_before a b l = true -> occurs_before a b (x :: l) = true.
Proof. cbn. intros ->. apply orb_true_r. Qed.

Lemma occurs_before_app_r (a b : Event) (l1 l2 : list Event) :
  occurs_before a b l2 = true -> occurs_before a b (l1 ++ l2) = true.
Proof.
  intros H. induction l1 as [|x l1 IH]; [exact H|].
  cbn. rewrite IH. apply orb_true_r.
Qed.

Lemma samples_switch (m : Z) (s : rng_state) :
  samples (switch_events m s) = switch_events m s.
Proof.
  unfold switch_events.
  repeat match goal with
         | |- context [match ?x with _ => _ end] => is_var x; destruct x
         end; reflexivity.
Qed.

Lemma samples_lines (xs : list Z) : forall i : Z,
  samples (line_events i xs) = map (EvInt63n 999) xs.
Proof.
  induction xs as [|x xs IH]; intros i; [reflexivity|].
  cbn. unfold samples in IH. rewrite IH. reflexivity.
Qed.

Lemma samples_head (ctx : Context) (w : World) :
  samples (head_events ctx w) = fst (unit_samples (modulus_of w) (rng w)) /\
  rng_after w = snd (unit_samples (modulus_of w) (rng w)).
Proof.
  split; [|reflexivity].
  unfold head_events, samples. rewrite !filter_app.
  fold (samples (switch_events (modulus_of w) (rng w))).
  fold (samples (line_events 0 (lines_of w))).
  rewrite samples_switch, samples_lines. reflexivity.
Qed.

Lemma samples_f1 (ctx : Context) (w : World) :
  samples (f1_events ctx w) =
  fst (unit_samples (modulus_of w) (rng w))
  ++ fst (unit_samples (modulus_of (after_head ctx w)) (rng_after w)) /\
  rng (after_f1 ctx w) =
  snd (unit_samples (modulus_of (after_head ctx w)) (rng_after w)).
Proof.
  split; [|reflexivity].
  unfold f1_events, f2_events, samples. rewrite !filter_app.
  fold (samples (head_events ctx w)).
  fold (samples (head_events (childCtx_of ctx w) (after_head ctx w))).
  rewrite (proj1 (samples_head ctx w)).
  rewrite (proj1 (samples_head (childCtx_of ctx w) (after_head ctx w))).
  cbn [filter latency_event is_sample]. rewrite !app_nil_r. reflexivity.
Qed.

Lemma nows_f1 (ctx : Context) (w : World) :
  nows (f1_events ctx w) =
  [start_time w; switch_time w;
   start_time (after_head ctx w); switch_time (after_head ctx w)].
Proof.
  unfold f1_events, f2_events, nows. rewrite !flat_map_app.
  fold (nows (head_events ctx w)).
  fold (nows (head_events (childCtx_of ctx w) (after_head ctx w))).
  rewrite !nows_head. reflexivity.
Qed.

Lemma switch_moduli_round (n : nat) (ctx : Context) (w : World) :
  switch_moduli (rounds_events (S n) ctx w) =
  modulus_of w :: modulus_of (after_head ctx w)
  :: switch_moduli (rounds_events n ctx (after_f1 ctx w)).
Proof.
  cbn [rounds_events]. unfold switch_moduli, nows. rewrite flat_map_app.
  fold (nows (f1_events ctx w)). rewrite nows_f1. reflexivity.
Qed.

Lemma rounds_lockstep (n : nat) (ctx1 ctx2 : Context) : forall w1 w2 : World,
  rng w1 = rng w2 ->
  switch_moduli (rounds_events n ctx1 w1) = switch_moduli (rounds_events n ctx2 w2) ->
  samples (rounds_events n ctx1 w1) = samples (rounds_events n ctx2 w2) /\
  rng (after_rounds n ctx1 w1) = rng (after_rounds n ctx2 w2).
Proof.
  induction n as [|n IH]; intros w1 w2 Hr Hm; [split; [reflexivity | exact Hr]|].
  rewrite !switch_moduli_round in Hm.
  injection Hm as Hm1 Hm2 Hm3.
  destruct (samples_f1 ctx1 w1) as [Hs1 Hr1].
  destruct (samples_f1 ctx2 w2) as [Hs2 Hr2].
  assert (rng_after w1 = rng_after w2) as Ha.
  { rewrite (proj2 (samples_head ctx1 w1)), (proj2 (samples_head ctx2 w2)).
    rewrite Hm1, Hr. reflexivity. }
  assert (rng (after_f1 ctx1 w1) = rng (after_f1 ctx2 w2)) as Hr'.
  { rewrite Hr1, Hr2, Hm2, Ha. reflexivity. }
  destruct (IH _ _ Hr' Hm3) as [IHs IHr].
  cbn [rounds_events after_rounds]. unfold samples in *.
  rewrite !filter_app, IHs, Hs1, Hs2, Hm1, Hm2, Hr, Ha.
  split; [reflexivity | exact IHr].
Qed.

Lemma initProvider_run (s : rng_state) (c : Z) (d : list N) (k : SpanId)
      (l : list Event) (ps es : option string) :
  initProvider (mkWorld s c d k (mkCollaborators None None ps es) l) =
  (Returned shutdown_closure,
   mkWorld s c d k (mkCollaborators None None ps es) (l ++ init_events)).
Proof.
  unfold initProvider, pbind, lift, handleErr, pret, bind, emit, ask.
  cbn. rewrite <- !app_assoc. reflexivity.
Qed.

(** *** What the rounds leave in the log *)

Lemma flat_map_head {A} (f : Event -> list A) (ctx : Context) (w : World) :
  (forall n v, f (EvInt63n n v) = []) -> (forall s, f (EvStdout s) = []) ->
  flat_map f (head_events ctx w) =
  f (EvNow (start_time w))
  ++ f (EvStart (next_span w) (ctx_span ctx) "ExecuteRequest")
  ++ f (EvNow (switch_time w)) ++ f (EvSleep (sleep_ns w))
  ++ f (EvEnd (next_span w)) ++ f (EvSince (since_time w))
  ++ f (EvInt31n 7 (nr_of w)).
Proof.
  intros H1 H2. unfold head_events. rewrite !flat_map_app.
  rewrite switch_events_silent by exact H1.
  rewrite line_events_silent by assumption.
  cbn [flat_map app]. rewrite !app_nil_r, <- !app_assoc. reflexivity.
Qed.

Lemma flat_map_f2 {A} (f : Event -> list A) (ctx : Context) (w : World) :
  (forall s, f (EvStdout s) = []) ->
  flat_map f (f2_events ctx w) = flat_map f (head_events ctx w).
Proof.
  intros H. unfold f2_events, latency_event. rewrite flat_map_app. cbn.
  rewrite H, !app_nil_r. reflexivity.
Qed.

Lemma flat_map_f1 {A} (f : Event -> list A) (ctx : Context) (w : World) :
  (forall s, f (EvStdout s) = []) ->
  flat_map f (f1_events ctx w) =
  flat_map f (head_events ctx w)
  ++ flat_map f (head_events (childCtx_of ctx w) (after_head ctx w)).
Proof.
  intros H. unfold f1_events. rewrite !flat_map_app, flat_map_f2 by exact H.
  unfold latency_event. cbn. rewrite H, !app_nil_r. reflexivity.
Qed.

Lemma switch_draw_range (m : Z) (s : rng_state) :
  0 <= fst (switch_draw m s) <= 17000.
Proof.
  unfold switch_draw.
  pose proof (Int63n_range 17001 s ltac:(lia)).
  pose proof (Int63n_range 8007 s ltac:(lia)).
  pose proof (Int63n_range 917 s ltac:(lia)).
  pose proof (Int63n_range 87 s ltac:(lia)).
  pose proof (Int63n_range 1173 s ltac:(lia)).
  repeat match goal with
         | |- context [match ?x with _ => _ end] => is_var x; destruct x
         end; cbn [fst]; lia.
Qed.

Lemma sleep_ns_range (w : World) :
  sleep_ns w = sleep_of w * 1000000 /\ 0 <= sleep_of w <= 17000.
Proof.
  pose proof (switch_draw_range (modulus_of w) (rng w)) as H.
  fold (sleep_of w) in H. split; [|exact H].
  unfold sleep_ns, Millisecond. apply wrap64_small. lia.
Qed.


Lemma flat_map_rounds_quiet {A} (f : Event -> list A) (n : nat) (ctx : Context) :
  (forall e, unit_event e -> f e = []) ->
  forall w : World, flat_map f (rounds_events n ctx w) = [].
Proof.
  intros H. induction n as [|n IH]; intros w; [reflexivity|].
  cbn [rounds_events]. rewrite flat_map_app, IH, app_nil_r.
  rewrite flat_map_f1 by (intros; apply H; exact I).
  rewrite !flat_map_head by (intros; apply H; exact I).
  rewrite !H by exact I. reflexivity.
Qed.

Lemma sleeps_head (ctx : Context) (w : World) :
  sleeps (head_events ctx w) = [sleep_ns w].
Proof. unfold sleeps. rewrite flat_map_head by reflexivity. reflexivity. Qed.

Lemma sleeps_f1 (ctx : Context) (w : World) :
  sleeps (f1_events ctx w) = [sleep_ns w; sleep_ns (after_head ctx w)].
Proof.
  unfold sleeps. rewrite flat_map_f1 by reflexivity.
  fold (sleeps (head_events ctx w)).
  fold (sleeps (head_events (childCtx_of ctx w) (after_head ctx w))).
  rewrite !sleeps_head. reflexivity.
Qed.

Lemma sleep_ns_ok (w : World) : whole_ms_up_to_17s (sleep_ns w).
Proof. exists (sleep_of w). apply sleep_ns_range. Qed.

Lemma starts_head (ctx : Context) (w : World) :
  starts (head_events ctx w) = [(next_span w, ctx_span ctx, "ExecuteRequest"%string)].
Proof. unfold starts. rewrite flat_map_head by reflexivity. reflexivity. Qed.

Lemma starts_f1 (ctx : Context) (w : World) :
  starts (f1_events ctx w) =
  [(next_span w, ctx_span ctx, "ExecuteRequest"%string);
   (S (next_span w), Some (next_span w), "ExecuteRequest"%string)].
Proof.
  unfold starts. rewrite flat_map_f1 by reflexivity.
  fold (starts (head_events ctx w)).
  fold (starts (head_events (childCtx_of ctx w) (after_head ctx w))).
  rewrite !starts_head. reflexivity.
Qed.

Lemma readings_f1 (ctx : Context) (w : World) :
  readings (f1_events ctx w) =
  [start_time w; switch_time w; since_time w;
   start_time (after_head ctx w); switch_time (after_head ctx w);
   since_time (after_head ctx w)].
Proof.
  unfold readings. rewrite flat_map_f1 by reflexivity.
  rewrite !flat_map_head by reflexivity. reflexivity.
Qed.

Lemma stdout_f1_length (ctx : Context) (w : World) :
  List.length (stdout (f1_events ctx w)) =
  (Z.to_nat (nr_of w) + Z.to_nat (nr_of (after_head ctx w)) + 2)%nat.
Proof.
  unfold f1_events, f2_events, stdout. rewrite !flat_map_app.
  fold (stdout (head_events ctx w)).
  fold (stdout (head_events (childCtx_of ctx w) (after_head ctx w))).
  rewrite !stdout_head. cbn [flat_map latency_event app].
  rewrite !length_app, !numbered_lines_length.
  rewrite (proj1 (proj2 (nr_lines_spec w))).
  rewrite (proj1 (proj2 (nr_lines_spec (after_head ctx w)))).
  cbn [List.length]. lia.
Qed.

Lemma main_run (n : nat) (w : World) :
  exporter_err (collab w) = None -> resource_err (collab w) = None ->
  main n w =
  (Returned tt,
   after_rounds n (ContextWithValues Background commonLabels) (loop_entry w)).
Proof.
  destruct w as [s c d k [xe re ps es] l]. cbn [collab exporter_err resource_err].
  intros -> ->.
  unfold main. unfold pbind at 1. rewrite initProvider_run.
  unfold pbind at 1, lift at 1. rewrite time_Now_run.
  cbn [rng clock drift next_span collab log].
  unfold pbind at 1, lift at 1, set_rng.
  cbn [rng clock drift next_span collab log].
  unfold lift. rewrite simulate_run.
  unfold loop_entry, nth_drift.
  cbn [rng clock drift next_span collab log].
  rewrite <- app_assoc.
  destruct d; reflexivity.
Qed.

Lemma modulus_before_epoch (w : World) :
  switch_time w < 0 -> Unix (switch_time w) mod 5 <> 0 -> modulus_of w < 0.
Proof.
  intros Ht Hm. unfold modulus_of, Go.rem.
  assert (Unix (switch_time w) < 0) as Hu
      by (unfold Unix; apply Z.div_lt_upper_bound; lia).
  pose proof (Z.rem_nonpos (Unix (switch_time w)) 5 ltac:(lia) ltac:(lia)) as Hn.
  assert (Z.rem (Unix (switch_time w)) 5 <> 0) as Hz.
  { intros H0. apply Hm. apply Z.rem_divide in H0; [|lia].
    apply Z.mod_divide; [lia | exact H0]. }
  lia.
Qed.

Lemma head_without_delay (ctx : Context) (w : World) :
  modulus_of w < 0 ->
  head_events ctx w = unit_without_delay ctx w ++ line_events 0 (lines_of w).
Proof.
  intros H.
  unfold head_events, unit_without_delay, since_time, sleep_ns, sleep_of, nr_of.
  generalize (lines_of w). intros xs.
  destruct (modulus_of w) as [|p|p]; try lia.
  cbn [switch_events switch_draw fst snd app].
  change (Go.wrap64 (0 * Millisecond)) with 0. change (Z.max 0 0) with 0.
  rewrite Z.add_0_r. reflexivity.
Qed.

End RunLemmas.

Ltac find_occurs :=
  repeat first [ apply occurs_here | apply occurs_cons | apply occurs_app_r ].

Ltac find_before :=
  repeat first [ apply occurs_before_here; solve [find_occurs]
               | apply occurs_before_cons
               | apply occurs_before_app_r ].

(** *** The verb %d prints a number that reads back *)

Lemma fmt_d_parse (z : Z) :
  option_map Z.of_int (NilZero.int_of_string (Go.fmt_d z)) = Some z.
Proof.
  unfold Go.fmt_d. rewrite NilZero.isi.
  - cbn. rewrite DecimalZ.of_to. reflexivity.
  - destruct z; cbn; try discriminate.
    intros [= H]. exact (DecimalPos.Unsigned.to_uint_nonnil _ H).
  - destruct z; cbn; try discriminate.
    intros [= H]. exact (DecimalPos.Unsigned.to_uint_nonnil _ H).
Qed.


(** *** The lines keep the numbers apart *)

Lemma fmt_d_numeral (z : Z) :
  0 <= z -> exists u, Go.fmt_d z = NilEmpty.string_of_uint u.
Proof.
  intros H. unfold Go.fmt_d. destruct z as [|p|p]; try lia.
  - exists (Decimal.D0 Decimal.Nil). reflexivity.
  - cbn [Z.to_int NilZero.string_of_int]. unfold NilZero.string_of_uint.
    destruct (Pos.to_uint p); try (eexists; reflexivity).
    exists (Decimal.D0 Decimal.Nil). reflexivity.
Qed.

Lemma numeral_delimited (c : ascii) (u1 : Decimal.uint) : forall (u2 : Decimal.uint) (r1 r2 : string),
  not_a_digit c ->
  (NilEmpty.string_of_uint u1 ++ String c r1
   = NilEmpty.string_of_uint u2 ++ String c r2)%string ->
  NilEmpty.string_of_uint u1 = NilEmpty.string_of_uint u2 /\ r1 = r2.
Proof.
  unfold not_a_digit.
  induction u1 as [|u1 IH|u1 IH|u1 IH|u1 IH|u1 IH|u1 IH|u1 IH|u1 IH|u1 IH|u1 IH];
    intros u2 r1 r2 Hc H; destruct u2; cbn in H;
    first [ discriminate H
          | injection H as H1 H2; subst c; discriminate Hc
          | injection H as H2; destruct (IH _ _ _ Hc H2) as [E ->];
            cbn; rewrite E; split; reflexivity
          | injection H as H2; split; [reflexivity | exact H2] ].
Qed.

Lemma fmt_d_injective (x y : Z) : Go.fmt_d x = Go.fmt_d y -> x = y.
Proof.
  intros H. pose proof (fmt_d_parse x) as Hx. rewrite H, fmt_d_parse in Hx.
  congruence.
Qed.

Lemma line_length_line_injective (i j x y : Z) :
  0 <= i -> 0 <= j -> 0 <= x -> 0 <= y ->
  line_length_line i x = line_length_line j y -> i = j /\ x = y.
Proof.
  intros Hi Hj Hx Hy H. unfold line_length_line in H.
  destruct (fmt_d_numeral i Hi) as [ui Ei]. destruct (fmt_d_numeral j Hj) as [uj Ej].
  destruct (fmt_d_numeral x Hx) as [ux Ex]. destruct (fmt_d_numeral y Hy) as [uy Ey].
  rewrite Ei, Ej, Ex, Ey in H. cbn [append] in H. injection H as H.
  apply numeral_delimited in H; [|reflexivity]. destruct H as [H1 H2].
  cbn [append] in H2. injection H2 as H2.
  apply numeral_delimited in H2; [|reflexivity]. destruct H2 as [H2 _].
  split; apply fmt_d_injective; congruence.
Qed.

Lemma numbered_lines_injective (xs : list Z) : forall (ys : list Z) (i : Z),
  0 <= i -> Forall (fun x => 0 <= x) xs -> Forall (fun y => 0 <= y) ys ->
  numbered_lines i xs = numbered_lines i ys -> xs = ys.
Proof.
  induction xs as [|x xs IH]; intros [|y ys] i Hi Hxs Hys H; try discriminate H.
  - reflexivity.
  - cbn [numbered_lines] in H. injection H as H1 H2.
    inversion Hxs as [|? ? Hx Hxs']. inversion Hys as [|? ? Hy Hys']. subst.
    destruct (line_length_line_injective i i x y Hi Hi Hx Hy) as [_ ->].
    { unfold line_length_line. cbn [append]. f_equal. exact H1. }
    f_equal. apply (IH ys (i + 1)); try assumption. lia.
Qed.

(** ** The randomized delay *)

Section Delay.

Context {R : RandSource}.


End Delay.



Section BeforeTheEpoch.

Context {R : RandSource}.

(** X2.  Go's % truncates towards zero.  When the clock is set before the Unix
    epoch and the second it shows is not a multiple of 5, the modulus is
    negative and no case of the switch matches: the unit, f2 or f1, draws
    no delay (its first draw is the count of lines) and sleeps for zero
    nanoseconds. *)
Theorem no_delay_before_epoch (ctx : Context) (w : World) :
  switch_time w < 0 -> Unix (switch_time w) mod 5 <> 0 ->
  (exists rest, trace (f2 ctx) w = unit_without_delay ctx w ++ rest) /\
  (exists rest, trace (f1 ctx) w = unit_without_delay ctx w ++ rest).
Proof.
  intros Ht Hm.
  pose proof (head_without_delay ctx w (modulus_before_epoch w Ht Hm)) as Hh.
  rewrite trace_f2, trace_f1. unfold f1_events, f2_events. rewrite Hh.
  split; eexists; rewrite <- app_assoc; reflexivity.
Qed.

End BeforeTheEpoch.

Lemma no_delay_before_epoch_witness :
  @switch_time demo_rand demo_world_1969 < 0 /\
  Unix (@switch_time demo_rand demo_world_1969) mod 5 <> 0 /\
  exists rest,
    trace (f2 Background) demo_world_1969 =
    [EvNow (-2000000001); EvStart 0%nat None "ExecuteRequest"; EvNow (-2000000001);
     EvSleep 0; EvEnd 0%nat; EvSince (-2000000001); EvInt31n 7 6] ++ rest.
Proof.
  assert (@switch_time demo_rand demo_world_1969 < 0) as H1 by (vm_compute; reflexivity).
  assert (Unix (@switch_time demo_rand demo_world_1969) mod 5 <> 0) as H2
      by (vm_compute; discriminate).
  split; [exact H1|]. split; [exact H2|].
  exact (proj1 (no_delay_before_epoch Background demo_world_1969 H1 H2)).
Defined.

Section Sleeps.

Context {R : RandSource}.

(** X3.  Every sleep of the rounds of the loop is a whole number of
    milliseconds between 0 and 17000, whatever the clock and the generator;
    there are two sleeps to a round. *)
Theorem sleeps_of_rounds (n : nat) (ctx : Context) (w : World) :
  Forall whole_ms_up_to_17s (sleeps (trace (simulate n ctx) w)) /\
  List.length (sleeps (trace (simulate n ctx) w)) = (2 * n)%nat.
Proof.
  rewrite trace_simulate. revert w.
  induction n as [|n IH]; intros w; [split; [constructor | reflexivity]|].
  destruct (IH (after_f1 ctx w)) as [IHf IHl].
  cbn [rounds_events]. unfold sleeps in *. rewrite flat_map_app.
  fold (sleeps (f1_events ctx w)). rewrite sleeps_f1.
  split.
  - cbn [app]. repeat constructor; try apply sleep_ns_ok. exact IHf.
  - cbn [app List.length]. rewrite IHl. lia.
Qed.

End Sleeps.

(** ** The measurements *)

Section Measurements.

Context {R : RandSource}.

(** C3.  In every unit of work the count n is the generator's draw
    [Int31n 7], so 0 <= n <= 6; then n values follow, each the draw
    [Int63n 999], so 0 <= value < 999, each printed at once under its index
    in the batch, counted from 0.  The inner unit is f2 run in the world f1
    has reached, so the same holds of it. *)
Theorem measurement_policy (ctx : Context) (w : World) :
  let n := nr_of w in
  let xs := lines_of w in
  0 <= n <= 6 /\
  List.length xs = Z.to_nat n /\
  Forall (fun x => 0 <= x < 999) xs /\
  (exists pre,
     trace (f2 ctx) w =
     pre ++ [EvInt31n 7 n] ++ line_events 0 xs ++ [latency_event w]) /\
  (exists pre post,
     trace (f1 ctx) w = pre ++ [EvInt31n 7 n] ++ line_events 0 xs ++ post) /\
  stdout (line_events 0 xs) = numbered_lines 0 xs /\
  trace (f1 ctx) w =
    head_events ctx w ++ trace (f2 (childCtx_of ctx w)) (after_head ctx w)
      ++ [latency_event w].
Proof.
  intros n xs. subst n xs.
  destruct (nr_lines_spec w) as (Hn & Hl & Hf).
  split; [exact Hn|]. split; [exact Hl|]. split; [exact Hf|].
  split; [|split; [|split]].
  - exists (unit_pre ctx w ++ [EvEnd (next_span w); EvSince (since_time w)]).
    rewrite trace_f2. unfold f2_events. rewrite head_events_split.
    rewrite <- !app_assoc. reflexivity.
  - exists (unit_pre ctx w ++ [EvEnd (next_span w); EvSince (since_time w)]).
    exists (f2_events (childCtx_of ctx w) (after_head ctx w) ++ [latency_event w]).
    rewrite trace_f1. unfold f1_events. rewrite head_events_split.
    rewrite <- !app_assoc. reflexivity.
  - apply stdout_line_events.
  - apply trace_f1_nested.
Qed.

End Measurements.

(** ** The life of a span *)

Section Spans.

Context {R : RandSource}.

(** C4.  f2 starts one span, the tracer's next one, and ends that span once;
    so does f1 in the events of its own, before it calls f2; the spans of
    the rounds of the loop are pairwise distinct, each started once and
    ended once, and no span is open when the call that started it
    returns. *)
Theorem span_started_once_ended_once (n : nat) (ctx : Context) (w : World) :
  (started (trace (f2 ctx) w) = [next_span w] /\
   ended (trace (f2 ctx) w) = [next_span w] /\
   open_spans (trace (f2 ctx) w) [] = []) /\
  (trace (f1 ctx) w =
     head_events ctx w ++ trace (f2 (childCtx_of ctx w)) (after_head ctx w)
       ++ [latency_event w] /\
   started (head_events ctx w) = [next_span w] /\
   ended (head_events ctx w) = [next_span w] /\
   open_spans (head_events ctx w) [] = [] /\
   open_spans (trace (f1 ctx) w) [] = []) /\
  (started (trace (simulate n ctx) w) = seq (next_span w) (2 * n) /\
   ended (trace (simulate n ctx) w) = seq (next_span w) (2 * n) /\
   NoDup (started (trace (simulate n ctx) w)) /\
   open_spans (trace (simulate n ctx) w) [] = []).
Proof.
  split; [|split].
  - rewrite trace_f2.
    split; [apply started_f2|]. split; [apply ended_f2 | apply open_spans_f2].
  - split; [apply trace_f1_nested|].
    split; [apply started_head|]. split; [apply ended_head|].
    split; [apply open_spans_head|].
    rewrite trace_f1. apply open_spans_f1.
  - rewrite trace_simulate.
    destruct (rounds_spans n ctx w) as (Hs & He & Ho).
    rewrite Hs, He. repeat split; try assumption. apply seq_NoDup.
Qed.


(** C1, as the code has it.  f1 ends its span right after its own sleep and
    calls f2 only after that: the outer span's end comes before the inner
    span's start; the inner span is a child of the outer one and is started
    and ended between the outer span's end and the outer unit's latency
    line, which is the last thing f1 does; the inner unit's whole sequence,
    its latency line included, comes before that line. *)
Theorem outer_span_ends_before_inner_unit (ctx : Context) (w : World) :
  let outer := next_span w in
  let inner := S (next_span w) in
  let inner_start := EvStart inner (Some outer) "ExecuteRequest" in
  let tr := trace (f1 ctx) w in
  tr = head_events ctx w ++ trace (f2 (childCtx_of ctx w)) (after_head ctx w)
         ++ [latency_event w] /\
  ended (head_events ctx w) = [outer] /\
  started (trace (f2 (childCtx_of ctx w)) (after_head ctx w)) = [inner] /\
  ended (trace (f2 (childCtx_of ctx w)) (after_head ctx w)) = [inner] /\
  ended tr = [outer; inner] /\
  occurs_before (EvEnd outer) inner_start tr = true /\
  occurs_before inner_start (EvEnd inner) tr = true /\
  occurs_before (EvEnd inner) (latency_event (after_head ctx w)) tr = true /\
  occurs_before (latency_event (after_head ctx w)) (latency_event w) tr = true.
Proof.
  intros outer inner inner_start tr. subst outer inner inner_start tr.
  split; [apply trace_f1_nested|].
  split; [apply ended_head|].
  rewrite trace_f2.
  split; [apply started_f2|]. split; [apply ended_f2|].
  rewrite trace_f1.
  split; [apply ended_f1|].
  rewrite f1_events_split.
  repeat split; find_before.
Qed.

End Spans.

(** C1, as stated, fails: in the run of f1 from [demo_world] the outer span
    (0) is ended before the inner span (1) is even started. *)
Lemma inner_span_end_not_first :
  ~ @inner_ends_first demo_rand Background demo_world.
Proof. unfold inner_ends_first. vm_compute. discriminate. Qed.

Section SpanForest.

Context {R : RandSource}.

(** X4.  The spans of the loop form a forest of depth two: each round starts one
    span under the context the loop was given and one span under that span,
    and nothing else; all are named "ExecuteRequest".  The context main
    gives the loop has no span, so in main each round is a trace of its
    own. *)
Theorem spans_of_rounds (n : nat) (ctx : Context) (w : World) :
  starts (trace (simulate n ctx) w) = round_starts n (next_span w) (ctx_span ctx) /\
  ctx_span (ContextWithValues Background commonLabels) = None.
Proof.
  split; [|reflexivity].
  rewrite trace_simulate. revert w.
  induction n as [|n IH]; intros w; [reflexivity|].
  cbn [rounds_events round_starts]. unfold starts in *. rewrite flat_map_app.
  fold (starts (f1_events ctx w)). rewrite starts_f1, IH. reflexivity.
Qed.

End SpanForest.

(** ** The latency *)

Section Latency.

Context {R : RandSource}.

(** C6.  The latency a unit prints is float64(d) / 1e6 for the Duration d
    that time.Since returns: the unit's reading of the clock right after it
    has ended its span, minus its startTime, in nanoseconds (capped at the
    largest Duration); it is a finite float64 and not negative. *)
Theorem latency_is_elapsed_time (ctx : Context) (w : World) :
  let t0 := start_time w in
  let t1 := since_time w in
  let d := Z.min Go.max_int64 (t1 - t0) in
  let latencyMs := Float64.div (Float64.of_int64 d) Float64.f1e6 in
  let tail := [EvEnd (next_span w); EvSince t1] ++ [EvInt31n 7 (nr_of w)]
                ++ line_events 0 (lines_of w) in
  t0 <= t1 /\
  0 <= d /\
  Float64.is_finite latencyMs = true /\
  Float64.sign latencyMs = false /\
  readings (unit_pre ctx w) = [t0; switch_time w] /\
  trace (f2 ctx) w =
    unit_pre ctx w ++ tail ++ [EvStdout (latency_line latencyMs)] /\
  trace (f1 ctx) w =
    unit_pre ctx w ++ tail ++ trace (f2 (childCtx_of ctx w)) (after_head ctx w)
      ++ [EvStdout (latency_line latencyMs)].
Proof.
  intros t0 t1 d latencyMs tail. subst t0 t1 d latencyMs tail.
  pose proof (switch_time_ge w). pose proof (since_time_ge w).
  destruct (elapsed_eq w) as [He Hb]. rewrite He in Hb.
  destruct (latency_float _ Hb) as [Hf Hs].
  split; [lia|]. split; [lia|]. split; [exact Hf|]. split; [exact Hs|].
  split; [apply readings_pre|].
  rewrite <- latency_event_eq.
  split.
  - rewrite trace_f2_split, <- !app_assoc. reflexivity.
  - rewrite trace_f1_split, <- !app_assoc. reflexivity.
Qed.


(** C5.  f1 takes its latency from the reading that follows the end of its
    span; f2 is called after that, and f1 prints the latency after f2 has
    returned.  The elapsed time is the outer sleep and the time that passed
    before two readings of the clock: every reading of the inner unit, its
    sleep and its span come later. *)
Theorem outer_latency_excludes_inner (ctx : Context) (w : World) :
  let w1 := after_head ctx w in
  let inner := trace (f2 (childCtx_of ctx w)) w1 in
  let t0 := start_time w in
  let t1 := since_time w in
  let latencyMs :=
    Float64.div (Float64.of_int64 (Z.min Go.max_int64 (t1 - t0))) Float64.f1e6 in
  trace (f1 ctx) w =
    unit_pre ctx w ++ [EvEnd (next_span w); EvSince t1]
      ++ [EvInt31n 7 (nr_of w)] ++ line_events 0 (lines_of w)
      ++ inner ++ [EvStdout (latency_line latencyMs)] /\
  readings (unit_pre ctx w) = [t0; switch_time w] /\
  t1 - t0 = nth_drift 1 w + Z.max 0 (sleep_ns w) + nth_drift 2 w /\
  readings inner = [start_time w1; switch_time w1; since_time w1] /\
  t1 <= start_time w1 /\
  In (EvStart (S (next_span w)) (Some (next_span w)) "ExecuteRequest") inner /\
  In (EvSleep (sleep_ns w1)) inner.
Proof.
  intros w1 inner t0 t1 latencyMs. subst inner t0 t1 latencyMs.
  rewrite <- latency_event_eq.
  split; [apply trace_f1_split|].
  split; [apply readings_pre|].
  split; [unfold since_time, switch_time; lia|].
  split; [apply readings_f2|].
  split; [apply (start_time_ge w1)|].
  rewrite trace_f2_split. unfold unit_pre.
  split.
  - apply in_or_app. left. cbn. right. left. reflexivity.
  - apply in_or_app. left. apply in_or_app. right. apply in_or_app. right.
    left. reflexivity.
Qed.



End Latency.

(** X9.  float64(d) is exact and float64(d) / 1e6 is correctly rounded, for a
    Duration d of up to 2^53 ns (104 days): the first is m * 2^(-k) with
    m = d * 2^k, the second is mf * 2^(-E) with mf * 10^6 less than one
    unit of 2^(-E) ns away from d. *)
Theorem latency_float_accuracy (d : Z) :
  0 < d < 2 ^ 53 ->
  exists (m mf : positive) (k E : Z),
    Float64.of_int64 d = S754_finite false m (- k) /\
    0 <= k /\ Zpos m = d * 2 ^ k /\
    Float64.div (Float64.of_int64 d) Float64.f1e6 = S754_finite false mf (- E) /\
    0 < E /\ Z.abs (d * 2 ^ E - Zpos mf * 1000000) < 2 ^ E.
Proof.
  intros Hd.
  destruct (of_int64_exact d Hd) as (m & k & Hx & Hk & Hm & _).
  destruct (div_1e6_close d Hd) as (mf & E & Hq & HE & Hc).
  exists m, mf, k, E. repeat split; try assumption; lia.
Qed.

Lemma latency_float_accuracy_witness :
  0 < 50001100 < 2 ^ 53 /\
  exists (m mf : positive) (k E : Z),
    Float64.of_int64 50001100 = S754_finite false m (- k) /\
    0 <= k /\ Zpos m = 50001100 * 2 ^ k /\
    Float64.div (Float64.of_int64 50001100) Float64.f1e6 = S754_finite false mf (- E) /\
    0 < E /\ Z.abs (50001100 * 2 ^ E - Zpos mf * 1000000) < 2 ^ E.
Proof.
  assert (0 < 50001100 < 2 ^ 53) as H by (split; reflexivity).
  split; [exact H|]. exact (latency_float_accuracy 50001100 H).
Defined.

Section LatencyLine.

Context {R : RandSource}.

(** X10.  The latency line of a unit shows the time between its two readings of
    the clock, in milliseconds, rounded to the nearest microsecond, when
    that time is below 2^53 ns; in particular what is printed is never
    less than the delay the unit slept. *)
Theorem latency_printed_to_the_microsecond (ctx : Context) (w : World) :
  since_time w - start_time w < 2 ^ 53 ->
  exists k : Z,
    latency_line (latency_of w) =
      ("Latency: " ++ Float64.fixed3 false k ++ "ms" ++ Go.newline)%string /\
    Z.abs (1000 * k - (since_time w - start_time w)) <= 500 /\
    1000 * sleep_of w <= k /\
    (exists l, trace (f2 ctx) w = l ++ [EvStdout (latency_line (latency_of w))]) /\
    (exists l, trace (f1 ctx) w = l ++ [EvStdout (latency_line (latency_of w))]).
Proof.
  intros Hlt.
  pose proof (switch_time_ge w) as H1. pose proof (since_time_ge w) as H2.
  assert (elapsed w = since_time w - start_time w) as He.
  { rewrite (proj1 (elapsed_eq w)). unfold Go.max_int64.
    assert (2 ^ 53 <= 2 ^ 63 - 1) by (vm_compute; discriminate). lia. }
  destruct (fmt_latency_close (elapsed w)) as (k & Hk & Hk0 & Hc);
    [rewrite He; lia|].
  exists k. unfold latency_line, latency_of. rewrite Hk.
  split; [reflexivity|]. rewrite He in Hc.
  split; [exact Hc|].
  split.
  { destruct (sleep_ns_range w) as [Hns Hs].
    assert (sleep_ns w <= since_time w - start_time w) as Hle.
    { unfold since_time, switch_time. pose proof (nth_drift_nonneg 1 w).
      pose proof (nth_drift_nonneg 2 w). lia. }
    apply Z.abs_le in Hc. lia. }
  fold (latency_of w). rewrite <- Hk. fold (latency_line (latency_of w)).
  split.
  - rewrite trace_f2. unfold f2_events. eexists. reflexivity.
  - rewrite trace_f1. unfold f1_events. eexists. rewrite app_assoc. reflexivity.
Qed.

End LatencyLine.

Lemma latency_printed_to_the_microsecond_witness :
  @since_time demo_rand demo_world - @start_time demo_rand demo_world < 2 ^ 53 /\
  exists k : Z,
    latency_line (@latency_of demo_rand demo_world) =
      ("Latency: " ++ Float64.fixed3 false k ++ "ms" ++ Go.newline)%string /\
    Z.abs (1000 * k - 12345000500) <= 500 /\
    1000 * 12345 <= k.
Proof.
  assert (@since_time demo_rand demo_world - @start_time demo_rand demo_world < 2 ^ 53)
    as H by (vm_compute; reflexivity).
  split; [exact H|].
  destruct (latency_printed_to_the_microsecond Background demo_world H)
    as (k & H1 & H2 & H3 & _).
  exists k. split; [exact H1|]. split; [exact H2 | exact H3].
Defined.

(** ** The output *)

Section Output.

Context {R : RandSource}.

Lemma lines_of_nonneg (w : World) : Forall (fun x => 0 <= x) (lines_of w).
Proof.
  eapply Forall_impl; [|apply (nr_lines_spec w)]. cbn. intros a Ha. lia.
Qed.

(** X11.  What a unit prints tells what it drew: two runs of f2 that print the
    same lines drew the same count and the same line lengths in the same
    order (and show the same latency); the format of a line keeps the index
    and the value apart. *)
Theorem output_determines_measurements (ctx1 ctx2 : Context) (w1 w2 : World) :
  stdout (trace (f2 ctx1) w1) = stdout (trace (f2 ctx2) w2) ->
  nr_of w1 = nr_of w2 /\
  lines_of w1 = lines_of w2 /\
  latency_line (latency_of w1) = latency_line (latency_of w2).
Proof.
  rewrite !stdout_f2. intros H. apply app_inj_tail in H. destruct H as [Hl Hlat].
  apply numbered_lines_injective in Hl; try lia; try apply lines_of_nonneg.
  split; [|split; assumption].
  destruct (nr_lines_spec w1) as (Hn1 & Hlen1 & _).
  destruct (nr_lines_spec w2) as (Hn2 & Hlen2 & _).
  rewrite Hl in Hlen1. lia.
Qed.

End Output.

Lemma output_determines_measurements_witness :
  stdout (trace (f2 Background) demo_world)
  = stdout (trace (f2 (mkContext (Some 1%nat) [])) demo_world_five_seconds_on) /\
  @nr_of demo_rand demo_world = @nr_of demo_rand demo_world_five_seconds_on /\
  @lines_of demo_rand demo_world = @lines_of demo_rand demo_world_five_seconds_on.
Proof.
  assert (stdout (trace (f2 Background) demo_world)
          = stdout (trace (f2 (mkContext (Some 1%nat) [])) demo_world_five_seconds_on))
    as H by (vm_compute; reflexivity).
  split; [exact H|].
  destruct (output_determines_measurements Background (mkContext (Some 1%nat) [])
              demo_world demo_world_five_seconds_on H) as (H1 & H2 & _).
  split; [exact H1 | exact H2].
Defined.

(** ** The rounds of the loop *)

Section Rounds.

Context {R : RandSource}.

(** X5.  A round of the loop reads the clock six times and prints between two
    and fourteen lines: its two latency lines and up to six lines of line
    lengths for each of its two units.  So n rounds read the clock 6n times
    and print between 2n and 14n lines. *)
Theorem round_footprint (n : nat) (ctx : Context) (w : World) :
  List.length (readings (trace (f1 ctx) w)) = 6%nat /\
  (2 <= List.length (stdout (trace (f1 ctx) w)) <= 14)%nat /\
  List.length (readings (trace (simulate n ctx) w)) = (6 * n)%nat /\
  (2 * n <= List.length (stdout (trace (simulate n ctx) w)) <= 14 * n)%nat.
Proof.
  rewrite trace_f1, trace_simulate.
  assert (forall w', (2 <= List.length (stdout (f1_events ctx w')) <= 14)%nat) as Hout.
  { intros w'. rewrite stdout_f1_length.
    pose proof (proj1 (nr_lines_spec w')).
    pose proof (proj1 (nr_lines_spec (after_head ctx w'))). lia. }
  split; [rewrite readings_f1; reflexivity|].
  split; [apply Hout|].
  revert w. induction n as [|n IH]; intros w; [cbn; lia|].
  destruct (IH (after_f1 ctx w)) as [IHr IHo].
  cbn [rounds_events]. unfold readings, stdout in *. rewrite !flat_map_app, !length_app.
  fold (readings (f1_events ctx w)). rewrite readings_f1.
  specialize (Hout w). unfold stdout in Hout.
  cbn [List.length]. lia.
Qed.

End Rounds.

(** ** Reproducible draws *)

Section Reproducible.

Context {R : RandSource}.

(** C7.  Two runs of the loop whose generators were seeded with the same
    seed, and whose switches saw the same moduli, make the same draws in
    the same order: the same delay draws (the bound tells the bucket) and
    sleeps, the same counts and the same values, whatever else differs (the
    clock, the time that passes, the contexts, the spans); and they leave
    the generator in the same state. *)
Theorem same_seed_same_moduli_same_draws
        (n : nat) (seed : Z) (ctx1 ctx2 : Context) (w1 w2 : World) :
  rng w1 = NewSource seed ->
  rng w2 = NewSource seed ->
  switch_moduli (trace (simulate n ctx1) w1)
  = switch_moduli (trace (simulate n ctx2) w2) ->
  samples (trace (simulate n ctx1) w1) = samples (trace (simulate n ctx2) w2) /\
  rng (snd (simulate n ctx1 w1)) = rng (snd (simulate n ctx2 w2)).
Proof.
  intros H1 H2. rewrite !trace_simulate, !simulate_run. cbn [snd].
  apply rounds_lockstep. congruence.
Qed.

End Reproducible.

Lemma same_seed_same_moduli_same_draws_witness :
  @rng demo_rand demo_world = @NewSource demo_rand 12345 /\
  @rng demo_rand demo_world_later = @NewSource demo_rand 12345 /\
  switch_moduli (trace (simulate 2 Background) demo_world)
  = switch_moduli (trace (simulate 2 Background) demo_world_later) /\
  samples (trace (simulate 2 Background) demo_world)
  = samples (trace (simulate 2 Background) demo_world_later).
Proof.
  assert (@rng demo_rand demo_world = @NewSource demo_rand 12345) as H1
      by reflexivity.
  assert (@rng demo_rand demo_world_later = @NewSource demo_rand 12345) as H2
      by reflexivity.
  assert (switch_moduli (trace (simulate 2 Background) demo_world)
          = switch_moduli (trace (simulate 2 Background) demo_world_later)) as H3
      by (vm_compute; reflexivity).
  split; [exact H1|]. split; [exact H2|]. split; [exact H3|].
  exact (proj1 (same_seed_same_moduli_same_draws 2 12345 Background Background
                  demo_world demo_world_later H1 H2 H3)).
Defined.

(** ** Start and shutdown of the pipeline *)

Section Pipeline.

Context {R : RandSource}.

(** C8.  When otlp.NewExporter fails, main logs "failed to create
    exporter: <error>" and the process exits with status 1, which is not 0,
    having made that one call; when resource.New fails, it logs "failed to
    create resource: <error>" and exits in the same way.  Nothing is
    retried and no span is started, for any number of rounds the loop was
    allowed. *)
Theorem init_failure_is_fatal
        (n : nat) (s : rng_state) (c : Z) (d : list N) (k : SpanId)
        (l : list Event) (e : string) (re ps es : option string) :
  main n (mkWorld s c d k (mkCollaborators (Some e) re ps es) l) =
    (Exited 1,
     mkWorld s c d k (mkCollaborators (Some e) re ps es)
       (l ++ [EvPipeline (NewExporter "0.0.0.0:55680");
              EvStderr ("failed to create exporter: " ++ e)%string;
              EvExit 1])) /\
  main n (mkWorld s c d k (mkCollaborators None (Some e) ps es) l) =
    (Exited 1,
     mkWorld s c d k (mkCollaborators None (Some e) ps es)
       (l ++ [EvPipeline (NewExporter "0.0.0.0:55680");
              EvPipeline (NewResource "test-service");
              EvStderr ("failed to create resource: " ++ e)%string;
              EvExit 1])) /\
  1 <> 0.
Proof.
  split; [|split; [|discriminate]].
  - unfold main, pbind, initProvider, pbind, lift, handleErr, log_Fatalf, bind, emit, ask.
    cbn. rewrite <- !app_assoc. reflexivity.
  - unfold main, pbind, initProvider, pbind, lift, handleErr, log_Fatalf, bind, emit, ask.
    cbn. rewrite <- !app_assoc. reflexivity.
Qed.


(** C9, as the code has it.  initProvider returns a closure that shuts down
    the trace provider, then the exporter, then stops the pusher, in that
    order, as long as no shutdown fails; when the provider's or the
    exporter's shutdown fails, handleErr logs "failed to shutdown provider:
    <error>" or "failed to stop exporter: <error>" and the process exits
    with status 1 without making the calls that remain. *)
Theorem shutdown_in_order_until_failure
        (s : rng_state) (c : Z) (d : list N) (k : SpanId)
        (l : list Event) (e : string) (xe re ps es : option string) :
  initProvider (mkWorld s c d k (mkCollaborators None None ps es) l) =
    (Returned shutdown_closure,
     mkWorld s c d k (mkCollaborators None None ps es) (l ++ init_events)) /\
  shutdown_closure (mkWorld s c d k (mkCollaborators xe re None None) l) =
    (Returned tt,
     mkWorld s c d k (mkCollaborators xe re None None)
       (l ++ [EvPipeline TracerProviderShutdown; EvPipeline ExporterShutdown;
              EvPipeline PusherStop])) /\
  shutdown_closure (mkWorld s c d k (mkCollaborators xe re (Some e) es) l) =
    (Exited 1,
     mkWorld s c d k (mkCollaborators xe re (Some e) es)
       (l ++ [EvPipeline TracerProviderShutdown;
              EvStderr ("failed to shutdown provider: " ++ e)%string;
              EvExit 1])) /\
  shutdown_closure (mkWorld s c d k (mkCollaborators xe re None (Some e)) l) =
    (Exited 1,
     mkWorld s c d k (mkCollaborators xe re None (Some e))
       (l ++ [EvPipeline TracerProviderShutdown; EvPipeline ExporterShutdown;
              EvStderr ("failed to stop exporter: " ++ e)%string;
              EvExit 1])).
Proof.
  split; [apply initProvider_run|].
  repeat split;
    unfold shutdown_closure, pbind, lift, handleErr, log_Fatalf, pret, bind, emit, ask;
    cbn; rewrite <- !app_assoc; reflexivity.
Qed.

End Pipeline.

(** C9, as stated, fails: when the exporter's shutdown fails the pusher is
    never stopped. *)
Lemma shutdown_stops_at_failure :
  ~ @shutdown_runs_all_three demo_rand demo_world_stuck_exporter.
Proof. unfold shutdown_runs_all_three. vm_compute. discriminate. Qed.

(** ** main *)

Section Main.

Context {R : RandSource}.

(** X7.  With a collector that initProvider can reach, main makes the calls of
    initProvider once, then reads the clock once, seeds the generator with
    that reading in nanoseconds, and spends the rest of its life in the
    rounds of the loop under a context that carries the two labels and no
    span.  It writes nothing to the error stream and does not exit,
    whether or not a later shutdown would fail. *)
Theorem main_healthy_run (n : nat) (w : World) :
  exporter_err (collab w) = None -> resource_err (collab w) = None ->
  let t := clock w + nth_drift 0 w in
  let defaultCtx := mkContext None [("method", "repl"); ("client", "cli")]%string in
  fst (main n w) = Returned tt /\
  ptrace (main n) w =
    init_events ++ [EvNow t] ++ trace (simulate n defaultCtx) (loop_entry w) /\
  rng (loop_entry w) = NewSource (Go.wrap64 t) /\
  failures (ptrace (main n) w) = [].
Proof.
  intros He Hr t defaultCtx.
  assert (ptrace (main n) w =
          init_events ++ [EvNow t] ++ trace (simulate n defaultCtx) (loop_entry w)) as Ht.
  { unfold ptrace. rewrite (main_run n w He Hr). cbn [snd].
    rewrite log_after_rounds, trace_simulate.
    unfold loop_entry at 1. cbn [log]. rewrite <- !app_assoc.
    apply skipn_app_exact. }
  split; [rewrite (main_run n w He Hr); reflexivity|].
  split; [exact Ht|].
  split; [reflexivity|].
  rewrite Ht, trace_simulate. unfold failures. rewrite !flat_map_app.
  rewrite flat_map_rounds_quiet; [reflexivity|].
  intros [] H; solve [reflexivity | destruct H].
Qed.

(** X8.  main never makes a call of the shutdown closure: whatever the
    collector does and however long the loop runs, the calls main makes to
    the pipeline are an initial part of initProvider's nine, and none of
    them shuts the provider or the exporter down or stops the pusher. *)
Theorem main_never_shuts_down (n : nat) (w : World) :
  (exists k, pipeline_calls (ptrace (main n) w)
             = firstn k (pipeline_calls init_events)) /\
  ~ In TracerProviderShutdown (pipeline_calls (ptrace (main n) w)) /\
  ~ In ExporterShutdown (pipeline_calls (ptrace (main n) w)) /\
  ~ In PusherStop (pipeline_calls (ptrace (main n) w)).
Proof.
  assert (exists k, pipeline_calls (ptrace (main n) w)
                    = firstn k (pipeline_calls init_events)) as [k Hk].
  { destruct (exporter_err (collab w)) as [e|] eqn:He;
      [|destruct (resource_err (collab w)) as [e|] eqn:Hr].
    - exists 1%nat. destruct w as [s c d i [xe re ps es] l]. cbn in He. subst xe.
      unfold ptrace, main, pbind, initProvider, pbind, lift, handleErr, log_Fatalf, bind,
        emit, ask.
      cbn. rewrite <- !app_assoc, skipn_app_exact. reflexivity.
    - exists 2%nat. destruct w as [s c d i [xe re ps es] l]. cbn in He, Hr. subst xe re.
      unfold ptrace, main, pbind, initProvider, pbind, lift, handleErr, log_Fatalf, bind,
        emit, ask.
      cbn. rewrite <- !app_assoc, skipn_app_exact. reflexivity.
    - exists 9%nat. unfold ptrace. rewrite (main_run n w He Hr). cbn [snd].
      rewrite log_after_rounds. unfold loop_entry at 1. cbn [log].
      rewrite <- !app_assoc, skipn_app_exact.
      unfold pipeline_calls. rewrite !flat_map_app.
      rewrite flat_map_rounds_quiet; [reflexivity|].
      intros [] H; solve [reflexivity | destruct H]. }
  split; [exists k; exact Hk|].
  rewrite Hk.
  assert (forall c, In c (firstn k (pipeline_calls init_events)) ->
                    In c (pipeline_calls init_events)) as Hin.
  { intros c H. rewrite <- (firstn_skipn k (pipeline_calls init_events)).
    apply in_or_app. left. exact H. }
  repeat split; intros H; apply Hin in H; cbn in H;
    repeat (destruct H as [H|H]; [discriminate H|]); exact H.
Qed.

End Main.

Lemma main_healthy_run_witness :
  exporter_err (@collab demo_rand demo_world) = None /\
  resource_err (@collab demo_rand demo_world) = None /\
  ptrace (main 1) demo_world =
    init_events ++ [EvNow 1600000000123456889]
      ++ trace (simulate 1 (mkContext None [("method", "repl"); ("client", "cli")]%string))
               (loop_entry demo_world).
Proof.
  split; [reflexivity|]. split; [reflexivity|].
  exact (proj1 (proj2 (main_healthy_run 1 demo_world eq_refl eq_refl))).
Defined.
